(** * A shallow embedding of [streaming_dataset/custom_streaming.py]

    The module defines [CustomStreamingDataset] (a chunked, optionally
    shuffled batch iterator with random access) and
    [convert_to_streaming_format] (the shard writer).  The embedding keeps
    the program's shape: Python values and exceptions, pandas frames as
    named typed columns, the file system as an explicit store threaded
    through the calls, and the generator [__iter__] as the list of batches
    it yields together with the exception that ended it, if any. *)

From Stdlib Require Import ZArith Lia Floats.SpecFloat.
From Stdlib Require Import Ascii DecimalString DecimalNat.
From stdpp Require Import gmap strings list.

Local Open Scope Z_scope.

(** ** Python values, exceptions and built-ins *)

Module Py.

(** The exceptions that the modelled code and the library calls it makes
    can raise. *)
Inductive exn :=
| IndexError | ValueError | TypeError | KeyError | AttributeError
| ZeroDivisionError | FileNotFoundError | FileExistsError
| IsADirectoryError | JSONDecodeError | ZstdError | ArrowInvalid.

Inductive result (A : Type) :=
| Ok (a : A)
| Raise (e : exn).
Arguments Ok {A} a.
Arguments Raise {A} e.

Definition bind {A B} (m : result A) (k : A → result B) : result B :=
  match m with
  | Ok a => k a
  | Raise e => Raise e
  end.

Definition len {A} (l : list A) : Z := Z.of_nat (length l).

(** A slice bound, clamped the way [l[lo:hi]] clamps it. *)
Definition clamp (n i : Z) : Z :=
  if i <? 0 then Z.max (i + n) 0 else Z.min i n.

(** [l[lo:hi]] *)
Definition slice {A} (l : list A) (lo hi : Z) : list A :=
  let lo' := clamp (len l) lo in
  let hi' := clamp (len l) hi in
  take (Z.to_nat (hi' - lo')) (drop (Z.to_nat lo') l).

(** The number of elements of [range(start, stop, step)], [step ≠ 0]. *)
Definition range_len (start stop step : Z) : nat :=
  if 0 <? step
  then (if start <? stop then Z.to_nat ((stop - start - 1) / step + 1) else 0%nat)
  else (if stop <? start then Z.to_nat ((start - stop - 1) / (- step) + 1) else 0%nat).

(** [range(start, stop, step)]; a zero step raises [ValueError]. *)
Definition range (start stop step : Z) : result (list Z) :=
  if step =? 0 then Raise ValueError
  else Ok ((λ k : nat, start + Z.of_nat k * step) <$> seq 0 (range_len start stop step)).

(** [list(range(n))] *)
Definition range1 (n : Z) : list Z := Z.of_nat <$> seq 0 (Z.to_nat n).

(** [min(l)] and [max(l)]; the empty sequence raises [ValueError]. *)
Definition min_ (l : list Z) : result Z :=
  match l with
  | [] => Raise ValueError
  | x :: l' => Ok (foldl Z.min x l')
  end.

Definition max_ (l : list Z) : result Z :=
  match l with
  | [] => Raise ValueError
  | x :: l' => Ok (foldl Z.max x l')
  end.

(** Positional access [l[i]] as pandas' [iloc] and Python lists do it:
    a negative position counts from the end, a position outside
    [-len, len) raises [IndexError]. *)
Definition at_ {A} (l : list A) (i : Z) : result A :=
  let j := if i <? 0 then i + len l else i in
  if j <? 0 then Raise IndexError
  else match l !! Z.to_nat j with
       | Some x => Ok x
       | None => Raise IndexError
       end.

(** [[l[i] for i in idxs]], failing on the first bad position. *)
Fixpoint take_ {A} (l : list A) (idxs : list Z) : result (list A) :=
  match idxs with
  | [] => Ok []
  | i :: rest =>
      bind (at_ l i) (λ x, bind (take_ l rest) (λ xs, Ok (x :: xs)))
  end.

(** A [dict] with string keys: insertion order is kept, assigning to a
    present key replaces its value in place. *)
Fixpoint dict_set {V} (d : list (string * V)) (k : string) (v : V) : list (string * V) :=
  match d with
  | [] => [(k, v)]
  | (k', v') :: d' =>
      if decide (k' = k) then (k, v) :: d' else (k', v') :: dict_set d' k v
  end.

Fixpoint dict_get {V} (d : list (string * V)) (k : string) : option V :=
  match d with
  | [] => None
  | (k', v') :: d' => if decide (k' = k) then Some v' else dict_get d' k
  end.

(** [s.endswith(suffix)] *)
Definition endswith (s suffix : string) : bool :=
  String.prefix (String.rev suffix) (String.rev s).

(** [os.path.join(a, b)] for POSIX paths. *)
Definition path_join (a b : string) : string :=
  if String.prefix "/" b then b
  else if decide (a = "") then b
  else if endswith a "/" then a +:+ b
  else a +:+ "/" +:+ b.

(** [f"{n:05d}"] for a non-negative [n]: decimal, zero-padded on the
    left to five digits. *)
Definition decimal (n : nat) : string := NilEmpty.string_of_uint (Nat.to_uint n).

Fixpoint zeros (k : nat) : string :=
  match k with
  | O => ""
  | S k' => String "0"%char (zeros k')
  end.

Definition fmt_05d (n : nat) : string :=
  let s := decimal n in zeros (5 - String.length s) +:+ s.

(** Values that [json.load] produces (numbers are integers: the
    manifest holds no others). *)
#[warnings="-register-all"]
Inductive json :=
| JNull
| JBool (b : bool)
| JInt (z : Z)
| JStr (s : string)
| JArr (items : list json)
| JObj (fields : list (string * json)).

End Py.

Import Py.

#[global] Instance result_ret : MRet result := @Ok.
#[global] Instance result_bind : MBind result := λ A B k m, Py.bind m k.
#[global] Instance result_fmap : FMap result := λ A B f m, Py.bind m (λ a, Ok (f a)).

(** ** pandas frames *)

Module Pandas.

(** A column is homogeneous typed storage; the constructor is its dtype
    ([int64], [float64], [bool], [datetime64[ns]], [object]). *)
Inductive column :=
| ColInt (xs : list Z)
| ColFloat (xs : list spec_float)
| ColBool (xs : list bool)
| ColDatetime (ns : list Z)
| ColObject (xs : list string).

Inductive scalar :=
| SInt (x : Z)
| SFloat (x : spec_float)
| SBool (x : bool)
| SDatetime (ns : Z)
| SObject (x : string).

(** A frame is its ordered list of named columns. *)
Definition DataFrame := list (string * column).

Definition cells (c : column) : list scalar :=
  match c with
  | ColInt xs => SInt <$> xs
  | ColFloat xs => SFloat <$> xs
  | ColBool xs => SBool <$> xs
  | ColDatetime xs => SDatetime <$> xs
  | ColObject xs => SObject <$> xs
  end.

Definition col_len (c : column) : nat := length (cells c).

(** A positional operation applied to the storage, whatever its dtype. *)
Definition col_lift (f : ∀ A, list A → list A) (c : column) : column :=
  match c with
  | ColInt xs => ColInt (f _ xs)
  | ColFloat xs => ColFloat (f _ xs)
  | ColBool xs => ColBool (f _ xs)
  | ColDatetime xs => ColDatetime (f _ xs)
  | ColObject xs => ColObject (f _ xs)
  end.

Definition col_liftM (f : ∀ A, list A → result (list A)) (c : column) : result column :=
  match c with
  | ColInt xs => ColInt <$> f _ xs
  | ColFloat xs => ColFloat <$> f _ xs
  | ColBool xs => ColBool <$> f _ xs
  | ColDatetime xs => ColDatetime <$> f _ xs
  | ColObject xs => ColObject <$> f _ xs
  end.

(** [len(df)]: the common length of the columns. *)
Definition df_len (df : DataFrame) : nat :=
  match df with
  | [] => 0%nat
  | (_, c) :: _ => col_len c
  end.

(** [df.iloc[lo:hi]] *)
Definition iloc_slice (df : DataFrame) (lo hi : Z) : DataFrame :=
  prod_map id (col_lift (λ A l, Py.slice l lo hi)) <$> df.

(** [series.iloc[idxs]] for a list of positions. *)
Definition iloc_take (c : column) (idxs : list Z) : result column :=
  col_liftM (λ A l, Py.take_ l idxs) c.

(** [series.iloc[i]] for one position. *)
Definition iloc_at (c : column) (i : Z) : result scalar := Py.at_ (cells c) i.

(** [pd.api.types.is_*_dtype] *)
Definition is_integer_dtype (c : column) : bool :=
  match c with ColInt _ => true | _ => false end.
Definition is_float_dtype (c : column) : bool :=
  match c with ColFloat _ => true | _ => false end.
Definition is_bool_dtype (c : column) : bool :=
  match c with ColBool _ => true | _ => false end.
Definition is_datetime64_any_dtype (c : column) : bool :=
  match c with ColDatetime _ => true | _ => false end.
Definition is_numeric_dtype (c : column) : bool :=
  match c with ColInt _ | ColFloat _ | ColBool _ => true | _ => false end.

(** All columns have the frame's length and distinct names: what every
    frame read from a file satisfies. *)
Definition df_wf (df : DataFrame) : Prop :=
  NoDup df.*1 ∧ Forall (λ nc, col_len nc.2 = df_len df) df.

(** The rows of a frame, each the list of its named cells. *)
Definition row_at (df : DataFrame) (i : nat) : list (string * option scalar) :=
  prod_map id (λ c, cells c !! i) <$> df.

Definition rows (df : DataFrame) : list (list (string * option scalar)) :=
  row_at df <$> seq 0 (df_len df).

End Pandas.

Import Pandas.

(** ** The file system *)

(** What a file holds, up to the codecs: writing a frame as a columnar
    block and reading it back gives the frame, compressing and
    decompressing gives the payload, and a JSON text parses to the value
    that was dumped. *)
Inductive blob :=
| Parquet (df : DataFrame)
| Zstd (payload : blob)
| JsonText (j : json)
| CsvText (df : DataFrame)
| JsonLines (df : DataFrame)
| Garbage (bytes : string).

Record World := mkWorld {
  files : gmap string blob;
  dirs : gset string;
  tmp_counter : nat;
}.

Definition write_file (path : string) (b : blob) (w : World) : World :=
  mkWorld (<[path := b]> (files w)) (dirs w) (tmp_counter w).

(** [os.remove] / [os.unlink] of a file. *)
Definition remove (path : string) (w : World) : World :=
  mkWorld (delete path (files w)) (dirs w) (tmp_counter w).

(** [open(path, 'r')] followed by [read()]. *)
Definition read_file (path : string) (w : World) : result blob :=
  match files w !! path with
  | Some b => Ok b
  | None => if decide (path ∈ dirs w) then Raise IsADirectoryError
            else Raise FileNotFoundError
  end.

Definition isdir (path : string) (w : World) : bool := bool_decide (path ∈ dirs w).

Definition exists_ (path : string) (w : World) : bool :=
  bool_decide (is_Some (files w !! path)) || isdir path w.

(** [os.makedirs(path, exist_ok=True)].  The store is flat: only [path]
    itself is examined, so the empty path and a path below a regular
    file, on which the library raises, are not told apart from a path
    that can be created. *)
Definition makedirs (path : string) (w : World) : result unit * World :=
  match files w !! path with
  | Some _ => (Raise FileExistsError, w)
  | None => (Ok (), mkWorld (files w) ({[path]} ∪ dirs w) (tmp_counter w))
  end.

Definition read_parquet (path : string) (w : World) : result DataFrame :=
  b ← read_file path w;
  match b with
  | Parquet df => Ok df
  | _ => Raise ArrowInvalid
  end.

Definition read_csv (path : string) (w : World) : result DataFrame :=
  b ← read_file path w;
  match b with
  | CsvText df => Ok df
  | _ => Raise ValueError
  end.

Definition read_json_lines (path : string) (w : World) : result DataFrame :=
  b ← read_file path w;
  match b with
  | JsonLines df => Ok df
  | _ => Raise ValueError
  end.

(** [json.load(open(path))] *)
Definition json_load (path : string) (w : World) : result json :=
  b ← read_file path w;
  match b with
  | JsonText j => Ok j
  | _ => Raise JSONDecodeError
  end.

(** [zstd.ZstdDecompressor().decompress] *)
Definition zstd_decompress (b : blob) : result blob :=
  match b with
  | Zstd payload => Ok payload
  | _ => Raise ZstdError
  end.

(** [tempfile.NamedTemporaryFile(delete=False, suffix='.parquet')]
    followed by [write(b)]: a new name each time.  The library draws a
    random name that no file has; here the name comes from a counter, so
    it is new among the temporary files, and the statements about other
    files are made for names that do not end in [.parquet]. *)
Definition temp_name (k : nat) : string := "/tmp/tmp" +:+ Py.decimal k +:+ ".parquet".

Definition write_temp (b : blob) (w : World) : string * World :=
  let name := temp_name (tmp_counter w) in
  (name, mkWorld (<[name := b]> (files w)) (dirs w) (S (tmp_counter w))).

(** ** [convert_to_streaming_format] *)

(** The type tag recorded for a column (the [# Get column types] loop). *)
Definition column_tag (c : column) : string :=
  if is_integer_dtype c then "int"
  else if is_float_dtype c then "float"
  else if is_bool_dtype c then "bool"
  else if is_datetime64_any_dtype c then "datetime"
  else "str".

Definition column_types (df : DataFrame) : list (string * string) :=
  foldl (λ columns nc, Py.dict_set columns nc.1 (column_tag nc.2)) [] df.

(** [f"shard.{i//chunk_size:05d}.parquet"] *)
Definition shard_file (i chunk_size : Z) : string :=
  "shard." +:+ Py.fmt_05d (Z.to_nat (i / chunk_size)) +:+ ".parquet".

(** The body of the shard loop for the window starting at row [i]:
    returns the name appended to [shards]. *)
Definition write_shard (df : DataFrame) (output_dir compression : string)
    (chunk_size i : Z) (w : World) : result string * World :=
  let shard_df := iloc_slice df i (i + chunk_size) in
  let shard_name := shard_file i chunk_size in
  let shard_path := Py.path_join output_dir shard_name in
  let w := write_file shard_path (Parquet shard_df) w in
  if decide (compression = "zstd") then
    match read_file shard_path w with
    | Raise e => (Raise e, w)
    | Ok raw =>
        let w := write_file (shard_path +:+ ".zstd") (Zstd raw) w in
        let w := remove shard_path w in
        (Ok (shard_name +:+ ".zstd"), w)
    end
  else (Ok shard_name, w).

(** The shard loop over the window starts; [shards] accumulates names. *)
Fixpoint write_shards (df : DataFrame) (output_dir compression : string)
    (chunk_size : Z) (starts : list Z) (shards : list string) (w : World)
    : result (list string) * World :=
  match starts with
  | [] => (Ok shards, w)
  | i :: rest =>
      match write_shard df output_dir compression chunk_size i w with
      | (Raise e, w) => (Raise e, w)
      | (Ok name, w) =>
          write_shards df output_dir compression chunk_size rest (shards ++ [name]) w
      end
  end.

(** The input table, chosen by the extension of [input_path]. *)
Definition load_input (input_path : string) (w : World) : result DataFrame :=
  if Py.endswith input_path ".csv" then read_csv input_path w
  else if Py.endswith input_path ".parquet" then read_parquet input_path w
  else if Py.endswith input_path ".json" then read_json_lines input_path w
  else Raise ValueError.

(** The manifest written as [index.json]. *)
Definition make_index (samples : nat) (columns : list (string * string))
    (shards : list string) : json :=
  JObj [("samples", JInt (Z.of_nat samples));
        ("columns", JObj (prod_map id JStr <$> columns));
        ("shards", JArr (JStr <$> shards))].

Definition convert_to_streaming_format (input_path output_dir compression : string)
    (chunk_size : Z) (w : World) : result unit * World :=
  match makedirs output_dir w with
  | (Raise e, w) => (Raise e, w)
  | (Ok _, w) =>
      match load_input input_path w with
      | Raise e => (Raise e, w)
      | Ok df =>
          let columns := column_types df in
          match Py.range 0 (Z.of_nat (df_len df)) chunk_size with
          | Raise e => (Raise e, w)
          | Ok starts =>
              match write_shards df output_dir compression chunk_size starts [] w with
              | (Raise e, w) => (Raise e, w)
              | (Ok shards, w) =>
                  let index := make_index (df_len df) columns shards in
                  (Ok (), write_file (Py.path_join output_dir "index.json") (JsonText index) w)
              end
          end
      end
  end.

(** ** [random.Random] *)

(** What the dataset needs of a generator: seeding and [_randbelow]. *)
Class RandomGen := {
  rng_state : Type;
  rng_seed : Z → rng_state;
  rng_randbelow : Z → rng_state → Z * rng_state;
  rng_randbelow_range n st : 0 < n → 0 ≤ (rng_randbelow n st).1 < n;
}.

(** [x[i], x[j] = x[j], x[i]] *)
Definition swap {A} (x : list A) (i j : nat) : list A :=
  match x !! i, x !! j with
  | Some xi, Some xj => <[j := xi]> (<[i := xj]> x)
  | _, _ => x
  end.

(** [Random.shuffle]: for [i] from [len(x) - 1] down to [1], swap [x[i]]
    with [x[randbelow(i + 1)]]. *)
Fixpoint shuffle_loop `{RandomGen} {A} (i : nat) (x : list A) (st : rng_state)
    : list A * rng_state :=
  match i with
  | O => (x, st)
  | S i' =>
      let '(j, st) := rng_randbelow (Z.of_nat i + 1) st in
      shuffle_loop i' (swap x i (Z.to_nat j)) st
  end.

Definition rng_shuffle `{RandomGen} {A} (x : list A) (st : rng_state) : list A * rng_state :=
  shuffle_loop (length x - 1) x st.

(** CPython's generator: MT19937 seeded by [init_by_array] from the 32-bit
    digits of the seed, [getrandbits] taking the high bits of one output
    word, [_randbelow] by rejection. *)
Module MT19937.
Definition N : nat := 624.
Definition M : nat := 397.
Definition MATRIX_A : Z := 0x9908b0df.
Definition UPPER_MASK : Z := 0x80000000.
Definition LOWER_MASK : Z := 0x7fffffff.

Definition u32 (x : Z) : Z := x mod 2 ^ 32.

Record state := mkState { mt : list Z; index : nat }.

Fixpoint init_fill (k : nat) (mti : Z) (prev : Z) : list Z :=
  match k with
  | O => []
  | S k' =>
      let x := u32 (1812433253 * Z.lxor prev (Z.shiftr prev 30) + mti) in
      x :: init_fill k' (mti + 1) x
  end.

Definition init_genrand (s : Z) : list Z :=
  u32 s :: init_fill (N - 1) 1 (u32 s).

(** [if (i >= N) { mt[0] = mt[N-1]; i = 1; }] *)
Definition wrap (mt : list Z) (i : nat) : list Z * nat :=
  if (N <=? i)%nat then (<[0%nat := mt !!! (N - 1)%nat]> mt, 1%nat) else (mt, i).

Fixpoint key_loop (k : nat) (init_key : list Z) (mt : list Z) (i j : nat) : list Z * nat :=
  match k with
  | O => (mt, i)
  | S k' =>
      let prev := mt !!! (i - 1)%nat in
      let x := u32 (Z.lxor (mt !!! i) (Z.lxor prev (Z.shiftr prev 30) * 1664525)
                    + init_key !!! j + Z.of_nat j) in
      let '(mt, i) := wrap (<[i := x]> mt) (S i) in
      let j := if (length init_key <=? S j)%nat then 0%nat else S j in
      key_loop k' init_key mt i j
  end.

Fixpoint mix_loop (k : nat) (mt : list Z) (i : nat) : list Z :=
  match k with
  | O => mt
  | S k' =>
      let prev := mt !!! (i - 1)%nat in
      let x := u32 (Z.lxor (mt !!! i) (Z.lxor prev (Z.shiftr prev 30) * 1566083941)
                    - Z.of_nat i) in
      let '(mt, i) := wrap (<[i := x]> mt) (S i) in
      mix_loop k' mt i
  end.

Definition init_by_array (init_key : list Z) : state :=
  let mt := init_genrand 19650218 in
  let '(mt, i) := key_loop (Nat.max N (length init_key)) init_key mt 1 0 in
  let mt := mix_loop (N - 1) mt i in
  mkState (<[0%nat := 0x80000000]> mt) N.

(** The 32-bit digits of [n], least significant first; at least one. *)
Fixpoint key_digits (fuel : nat) (n : Z) : list Z :=
  match fuel with
  | O => []
  | S fuel' => u32 n :: (if n / 2 ^ 32 =? 0 then [] else key_digits fuel' (n / 2 ^ 32))
  end.

(** [random.Random(a)] for an integer [a]: the key is [abs(a)]. *)
Definition seed (a : Z) : state :=
  let n := Z.abs a in
  init_by_array (key_digits (S (Z.to_nat (Z.log2 n) / 32)) n).

(** Regenerating the [N] words in place. *)
Fixpoint twist (k : nat) (kk : nat) (mt : list Z) : list Z :=
  match k with
  | O => mt
  | S k' =>
      let y := Z.lor (Z.land (mt !!! kk) UPPER_MASK)
                     (Z.land (mt !!! ((kk + 1) mod N)%nat) LOWER_MASK) in
      let x := Z.lxor (Z.lxor (mt !!! ((kk + M) mod N)%nat) (Z.shiftr y 1))
                      (if Z.testbit y 0 then MATRIX_A else 0) in
      twist k' (S kk) (<[kk := x]> mt)
  end.

Definition genrand_uint32 (st : state) : Z * state :=
  let st := if (N <=? index st)%nat then mkState (twist N 0 (mt st)) 0 else st in
  let y := mt st !!! index st in
  let y := Z.lxor y (Z.shiftr y 11) in
  let y := Z.lxor y (Z.land (Z.shiftl y 7) 0x9d2c5680) in
  let y := Z.lxor y (Z.land (Z.shiftl y 15) 0xefc60000) in
  let y := Z.lxor y (Z.shiftr y 18) in
  (u32 y, mkState (mt st) (S (index st))).

(** [getrandbits(k)] for [0 <= k <= 32], the widths [shuffle] asks for
    on a list of fewer than [2^32] elements. *)
Definition getrandbits (k : Z) (st : state) : Z * state :=
  if k =? 0 then (0, st)
  else let '(r, st) := genrand_uint32 st in (Z.shiftr r (32 - k), st).

Definition bit_length (n : Z) : Z := if n =? 0 then 0 else Z.log2 (Z.abs n) + 1.

(** [while r >= n: r = getrandbits(k)]; a draw is below [n] with
    probability above one half, and the loop is cut after [fuel]
    further draws, answering [0]. *)
Fixpoint randbelow_loop (fuel : nat) (n k : Z) (st : state) : Z * state :=
  let '(r, st') := getrandbits k st in
  if r <? n then (r, st')
  else match fuel with
       | O => (0, st')
       | S fuel' => randbelow_loop fuel' n k st'
       end.

Definition randbelow (n : Z) (st : state) : Z * state :=
  randbelow_loop 1024 n (bit_length n) st.

Lemma genrand_uint32_nonneg st : 0 ≤ (genrand_uint32 st).1.
Proof. unfold genrand_uint32, u32. cbn [fst]. apply Z.mod_pos_bound. lia. Qed.

Lemma getrandbits_nonneg k st : 0 ≤ (getrandbits k st).1.
Proof.
  unfold getrandbits. destruct (k =? 0); [cbn [fst]; lia|].
  pose proof (genrand_uint32_nonneg st) as Hr.
  destruct (genrand_uint32 st) as [r st']. cbn [fst] in *.
  by apply Z.shiftr_nonneg.
Qed.

Lemma randbelow_loop_range fuel n k st :
  0 < n → 0 ≤ (randbelow_loop fuel n k st).1 < n.
Proof.
  intros Hn. revert st. induction fuel as [|fuel IH]; intros st;
    cbn [randbelow_loop];
    pose proof (getrandbits_nonneg k st) as Hr;
    destruct (getrandbits k st) as [r st']; cbn [fst] in Hr;
    destruct (Z.ltb_spec r n); cbn [fst]; try lia.
  apply IH.
Qed.
End MT19937.

#[global] Arguments MT19937.seed : simpl never.
#[global] Arguments MT19937.randbelow : simpl never.

#[global] Instance mt19937 : RandomGen := {|
  rng_state := MT19937.state;
  rng_seed := MT19937.seed;
  rng_randbelow := MT19937.randbelow;
  rng_randbelow_range n st := MT19937.randbelow_loop_range 1024 n _ st;
|}.

(** ** [torch.tensor(..., dtype=torch.float32)] *)

(** binary32 values, as [SpecFloat] has them (24-bit significand, exponent
    bound 128); conversion rounds to nearest, ties to even. *)
Definition f32_of_Z (z : Z) : spec_float := binary_normalize 24 128 z 0 false.

Definition f32_of_f64 (x : spec_float) : spec_float :=
  match x with
  | S754_finite s m e => binary_normalize 24 128 (if s then Z.neg m else Z.pos m) e s
  | _ => x
  end.

Definition f32_of_bool (b : bool) : spec_float := f32_of_Z (if b then 1 else 0).

(** A value of a batch: a float32 tensor, or the numpy array as loaded. *)
Inductive batch_value :=
| Tensor (xs : list spec_float)
| NdArray (c : column).

Definition Batch := list (string * batch_value).

Definition torch_float32 (c : column) : result (list spec_float) :=
  match c with
  | ColInt xs => Ok (f32_of_Z <$> xs)
  | ColFloat xs => Ok (f32_of_f64 <$> xs)
  | ColBool xs => Ok (f32_of_bool <$> xs)
  | _ => Raise TypeError
  end.

(** ** [CustomStreamingDataset] *)

Inductive Format := csv | parquet | custom_streaming.

(** An integer where Python needs one ([range], comparison with an
    [int]); [bool] is a subclass of [int]. *)
Definition as_int (j : json) : result Z :=
  match j with
  | JInt z => Ok z
  | JBool b => Ok (Z.b2z b)
  | _ => Raise TypeError
  end.

(** [index.get(key, default)]; only a [dict] has [get]. *)
Definition json_get (index : json) (key : string) (default_ : json) : result json :=
  match index with
  | JObj fields => Ok (default default_ (Py.dict_get fields key))
  | _ => Raise AttributeError
  end.

(** [os.path.join(self.data_path, self.shards[0])] *)
Definition first_shard_path (data_path : string) (shards : json) : result string :=
  match shards with
  | JArr [] => Raise IndexError
  | JArr (JStr name :: _) => Ok (Py.path_join data_path name)
  | JArr (_ :: _) => Raise TypeError
  | JStr "" => Raise IndexError
  | JStr (String c _) => Ok (Py.path_join data_path (String c ""))
  | JObj _ => Raise KeyError
  | _ => Raise TypeError
  end.

(** [pd.read_csv(path, skiprows=range(1, start_idx + 1), nrows=end_idx - start_idx)].
    A csv file is kept as the frame it parses to, so the window has the
    column types of the whole file; the library infers them from the
    rows of the window. *)
Definition read_csv_window (path : string) (start_idx end_idx : Z) (w : World)
    : result DataFrame :=
  df ← read_csv path w;
  if end_idx - start_idx <? 0 then Raise ValueError
  else let lo := Z.max 0 start_idx in
       Ok (iloc_slice df lo (lo + (end_idx - start_idx))).

Section Dataset.
Context `{RandomGen}.

Record Dataset := mkDataset {
  self_data_path : string;
  self_batch_size : Z;
  self_shuffle : bool;
  self_seed : Z;
  self_chunk_size : Z;
  self_format : Format;
  self_length : json;
  self_columns : json;
  self_shards : json;
  self_rng : rng_state;
}.

(** [_load_index]: the three attributes read from [index.json]. *)
Definition _load_index (data_path : string) (w : World) : result (json * json * json) :=
  let index_path := Py.path_join data_path "index.json" in
  index ← json_load index_path w;
  length ← json_get index "samples" (JInt 0);
  columns ← json_get index "columns" (JObj []);
  shards ← json_get index "shards" (JArr []);
  Ok (length, columns, shards).

(** [_get_csv_length]: the line count less the header.  A csv file is
    kept as the frame it parses to, one line per row. *)
Definition _get_csv_length (data_path : string) (w : World) : result json :=
  df ← read_csv data_path w; Ok (JInt (Z.of_nat (df_len df))).

(** [_get_parquet_length]: [num_rows] of the file's metadata. *)
Definition _get_parquet_length (data_path : string) (w : World) : result json :=
  df ← read_parquet data_path w; Ok (JInt (Z.of_nat (df_len df))).

(** [__init__]; [fresh] is what [random.randint(0, 2**32 - 1)] draws when
    no seed is given. *)
Definition __init__ (data_path : string) (batch_size : Z) (shuffle : bool)
    (seed : option Z) (chunk_size : Z) (fresh : Z) (w : World) : result Dataset :=
  let seed := default fresh seed in
  let make format lcs :=
    mkDataset data_path batch_size shuffle seed chunk_size format
      lcs.1.1 lcs.1.2 lcs.2 (rng_seed seed) in
  if isdir data_path w then
    if exists_ (Py.path_join data_path "index.json") w then
      make custom_streaming <$> _load_index data_path w
    else Raise ValueError
  else if Py.endswith data_path ".csv" then
    (λ n, make csv (n, JNull, JNull)) <$> _get_csv_length data_path w
  else if Py.endswith data_path ".parquet" then
    (λ n, make parquet (n, JNull, JNull)) <$> _get_parquet_length data_path w
  else Raise ValueError.

Definition __len__ (self : Dataset) : json := self_length self.

(** [_load_chunk] *)
Definition _load_chunk (self : Dataset) (start_idx end_idx : Z) (w : World)
    : result DataFrame * World :=
  match self_format self with
  | csv => (read_csv_window (self_data_path self) start_idx end_idx w, w)
  | parquet => (read_parquet (self_data_path self) w, w)
  | custom_streaming =>
      match first_shard_path (self_data_path self) (self_shards self) with
      | Raise e => (Raise e, w)
      | Ok shard_path =>
          if Py.endswith shard_path ".zstd" then
            match read_file shard_path w ≫= zstd_decompress with
            | Raise e => (Raise e, w)
            | Ok decompressed_data =>
                let '(temp_path, w) := write_temp decompressed_data w in
                match read_parquet temp_path w with
                | Raise e => (Raise e, w)
                | Ok df => (Ok df, remove temp_path w)
                end
            end
          else (read_parquet shard_path w, w)
      end
  end.

(** The body of [for col in chunk_data.columns] for one batch. *)
Fixpoint extract_batch (columns : DataFrame) (batch_indices : list Z) (batch : Batch)
    : result Batch :=
  match columns with
  | [] => Ok batch
  | (col, series) :: rest =>
      col_data ← iloc_take series batch_indices;
      v ← (if is_numeric_dtype series then Tensor <$> torch_float32 col_data
           else Ok (NdArray col_data));
      extract_batch rest batch_indices (Py.dict_set batch col v)
  end.

(** The batch loop over one chunk: the batches yielded and the exception
    that ended the loop, if any. *)
Fixpoint iter_batches (chunk_data : DataFrame) (chunk_indices : list Z)
    (batch_size : Z) (starts : list Z) : list Batch * option exn :=
  match starts with
  | [] => ([], None)
  | batch_start :: rest =>
      let batch_end := Z.min (batch_start + batch_size) (Py.len chunk_indices) in
      let batch_indices := Py.slice chunk_indices batch_start batch_end in
      match extract_batch chunk_data batch_indices [] with
      | Raise e => ([], Some e)
      | Ok batch =>
          let '(more, e) := iter_batches chunk_data chunk_indices batch_size rest in
          (batch :: more, e)
      end
  end.

(** The chunk loop. *)
Fixpoint iter_chunks (self : Dataset) (length : Z) (indices : list Z)
    (starts : list Z) (w : World) : list Batch * option exn * World :=
  match starts with
  | [] => ([], None, w)
  | chunk_start :: rest =>
      let chunk_end := Z.min (chunk_start + self_chunk_size self) length in
      let chunk_indices := Py.slice indices chunk_start chunk_end in
      match Py.min_ chunk_indices, Py.max_ chunk_indices with
      | Raise e, _ | _, Raise e => ([], Some e, w)
      | Ok lo, Ok hi =>
          match _load_chunk self lo (hi + 1) w with
          | (Raise e, w) => ([], Some e, w)
          | (Ok chunk_data, w) =>
              match Py.range 0 (Py.len chunk_indices) (self_batch_size self) with
              | Raise e => ([], Some e, w)
              | Ok batch_starts =>
                  match iter_batches chunk_data chunk_indices
                          (self_batch_size self) batch_starts with
                  | (batches, Some e) => (batches, Some e, w)
                  | (batches, None) =>
                      let '(more, e, w) := iter_chunks self length indices rest w in
                      (batches ++ more, e, w)
                  end
              end
          end
      end
  end.

Definition set_rng (self : Dataset) (st : rng_state) : Dataset :=
  mkDataset (self_data_path self) (self_batch_size self) (self_shuffle self)
    (self_seed self) (self_chunk_size self) (self_format self) (self_length self)
    (self_columns self) (self_shards self) st.

(** [__iter__], run to its end: the batches yielded, the exception that
    ended the generator if one did, the instance (its generator state
    advanced by a shuffle) and the file system afterwards. *)
Definition __iter__ (self : Dataset) (w : World)
    : list Batch * option exn * Dataset * World :=
  match as_int (self_length self) with
  | Raise e => ([], Some e, self, w)
  | Ok length =>
      let indices := Py.range1 length in
      let '(indices, self) :=
        if self_shuffle self
        then let '(x, st) := rng_shuffle indices (self_rng self) in (x, set_rng self st)
        else (indices, self) in
      match Py.range 0 length (self_chunk_size self) with
      | Raise e => ([], Some e, self, w)
      | Ok starts =>
          let '(batches, e, w) := iter_chunks self length indices starts w in
          (batches, e, self, w)
      end
  end.

(** The body of [for col in chunk_data.columns] of [__getitem__]. *)
Fixpoint extract_sample (columns : DataFrame) (pos : Z) (sample : list (string * scalar))
    : result (list (string * scalar)) :=
  match columns with
  | [] => Ok sample
  | (col, series) :: rest =>
      v ← iloc_at series pos;
      extract_sample rest pos (Py.dict_set sample col v)
  end.

Definition __getitem__ (self : Dataset) (idx : Z) (w : World)
    : result (list (string * scalar)) * World :=
  if idx <? 0 then (Raise IndexError, w)
  else
    match as_int (self_length self) with
    | Raise e => (Raise e, w)
    | Ok length =>
        if idx >=? length then (Raise IndexError, w)
        else if self_chunk_size self =? 0 then (Raise ZeroDivisionError, w)
        else
          let chunk_start := idx / self_chunk_size self * self_chunk_size self in
          let chunk_end := Z.min (chunk_start + self_chunk_size self) length in
          match _load_chunk self chunk_start chunk_end w with
          | (Raise e, w) => (Raise e, w)
          | (Ok chunk_data, w) => (extract_sample chunk_data (idx - chunk_start) [], w)
          end
    end.

End Dataset.

(** ** A running example: ten rows *)

Definition ten : DataFrame :=
  [("id", ColInt [0; 1; 2; 3; 4; 5; 6; 7; 8; 9]);
   ("ok", ColBool [true; false; true; false; true; false; true; false; true; false]);
   ("name", ColObject ["a"; "b"; "c"; "d"; "e"; "f"; "g"; "h"; "i"; "j"])].

Definition disk0 : World := mkWorld {["in.parquet" := Parquet ten]} ∅ 0.

(** [ten] converted with the given chunk size. *)
Definition disk_ten (compression : string) (chunk_size : Z) : World :=
  (convert_to_streaming_format "in.parquet" "out" compression chunk_size disk0).2.

Definition batch_rows (b : Batch) : nat :=
  match b with
  | [] => 0%nat
  | (_, Tensor xs) :: _ => length xs
  | (_, NdArray c) :: _ => col_len c
  end.

(** * Vocabulary of the statements *)

(** What [path_join] puts in front of a relative name. *)
Definition dir_prefix (a : string) : string :=
  if decide (a = "") then ""
  else if Py.endswith a "/" then a else a +:+ "/".

Definition parse_ordinal (s : string) : option nat :=
  Nat.of_uint <$> NilEmpty.uint_of_string s.

(** The number of windows of [chunk_size] rows that cover [n] rows. *)
Definition ceil_div (n : nat) (chunk_size : Z) : nat :=
  Z.to_nat ((Z.of_nat n + chunk_size - 1) / chunk_size).

(** The name of the [k]-th shard and what its file holds. *)
Definition nth_shard_name (compression : string) (k : nat) : string :=
  "shard." +:+ Py.fmt_05d k +:+ ".parquet"
  +:+ (if decide (compression = "zstd") then ".zstd" else "").

Definition encode (compression : string) (frame : DataFrame) : blob :=
  if decide (compression = "zstd") then Zstd (Parquet frame) else Parquet frame.

Definition four_tags : list string := ["int"; "float"; "bool"; "str"].

Definition five_tags : list string := ["int"; "float"; "bool"; "datetime"; "str"].

(** A directory whose manifest is the empty object. *)
Definition disk_empty_index : World :=
  mkWorld {["d/index.json" := JsonText (JObj [])]} {["d"]} 0.

(** The dataset directory [out] made from [ten], as the reader opens it. *)
Definition open_ten (compression : string) (shard_rows : Z)
    (batch_size : Z) (shuffle : bool) (chunk_size : Z) : result Dataset :=
  __init__ "out" batch_size shuffle (Some 0) chunk_size 0 (disk_ten compression shard_rows).

(** A dataset whose only shard decompresses to bytes that are not a
    columnar block. *)
Definition disk_bad_shard : World :=
  mkWorld {[ "d/index.json" := JsonText (make_index 1 [] ["shard.00000.parquet.zstd"]);
             "d/shard.00000.parquet.zstd" := Zstd (Garbage "truncated") ]} {["d"]} 0.

(** How a selected column is returned in a batch. *)
Definition returned_as (col_data : column) (v : batch_value) : Prop :=
  match col_data with
  | ColInt zs => v = Tensor (f32_of_Z <$> zs)
  | ColFloat xs => v = Tensor (f32_of_f64 <$> xs)
  | ColBool bs => v = Tensor (f32_of_bool <$> bs)
  | ColDatetime _ | ColObject _ => v = NdArray col_data
  end.

(** A batch cut from [chunk_data] at the positions [idxs]. *)
Definition cut_from (chunk_data : DataFrame) (idxs : list Z) (b : Batch) : Prop :=
  (∀ name series, (name, series) ∈ chunk_data → is_Some (Py.dict_get b name))
  ∧ ∀ name v, (name, v) ∈ b →
      ∃ series col_data,
        (name, series) ∈ chunk_data
        ∧ iloc_take series idxs = Ok col_data
        ∧ is_numeric_dtype col_data = is_numeric_dtype series
        ∧ returned_as col_data v.

(** The values that a batch returns for the selected storage. *)
Definition batch_value_of (col_data : column) : batch_value :=
  match col_data with
  | ColInt zs => Tensor (f32_of_Z <$> zs)
  | ColFloat xs => Tensor (f32_of_f64 <$> xs)
  | ColBool bs => Tensor (f32_of_bool <$> bs)
  | ColDatetime _ | ColObject _ => NdArray col_data
  end.

(** A cell of a batch: a float32 number or the stored scalar. *)
Inductive cell :=
| F32 (x : spec_float)
| Stored (s : scalar).

Definition cell_of (s : scalar) : cell :=
  match s with
  | SInt z => F32 (f32_of_Z z)
  | SFloat x => F32 (f32_of_f64 x)
  | SBool b => F32 (f32_of_bool b)
  | SDatetime _ | SObject _ => Stored s
  end.

Definition value_cells (v : batch_value) : list cell :=
  match v with
  | Tensor xs => F32 <$> xs
  | NdArray c => Stored <$> cells c
  end.

(** Consecutive windows of [size] entries of a list. *)
Definition windows {A} (l : list A) (size : Z) : list (list A) :=
  (λ k : nat, Py.slice l (Z.of_nat k * size) (Z.min (Z.of_nat k * size + size) (Py.len l)))
  <$> seq 0 (ceil_div (length l) size).

(** The positions of each batch: the windows of [batch_size] entries of
    each window of [chunk_size] entries. *)
Definition batch_plan (indices : list Z) (chunk_size batch_size : Z) : list (list Z) :=
  windows indices chunk_size ≫= (λ chunk_indices, windows chunk_indices batch_size).

(** The positions of each batch, paired with the positions of the chunk
    window that the batch is cut from. *)
Definition chunk_batch_plan (indices : list Z) (chunk_size batch_size : Z)
    : list (list Z * list Z) :=
  windows indices chunk_size
  ≫= (λ chunk_indices, pair chunk_indices <$> windows chunk_indices batch_size).

(** The lengths of the windows of [size] entries over [total] entries. *)
Definition split_sizes (total : nat) (size : Z) : list nat :=
  (λ k : nat, Z.to_nat (Z.min size (Z.of_nat total - Z.of_nat k * size)))
  <$> seq 0 (ceil_div total size).

Definition batch_sizes (n : nat) (chunk_size batch_size : Z) : list nat :=
  split_sizes n chunk_size ≫= (λ rows, split_sizes rows batch_size).

(** What the shard file at [path] holds when it stores [chunk_data]. *)
Definition shard_blob (path : string) (chunk_data : DataFrame) : blob :=
  if Py.endswith path ".zstd" then Zstd (Parquet chunk_data) else Parquet chunk_data.

Definition value_len (v : batch_value) : nat := length (value_cells v).

(** [ten] in a single shard, read in chunks of four rows and batches of
    three. *)
Definition ten_single : Dataset :=
  mkDataset "out" 3 false 0 4 custom_streaming (JInt 10)
    (JObj [("id", JStr "int"); ("ok", JStr "bool"); ("name", JStr "str")])
    (JArr [JStr "shard.00000.parquet"]) (rng_seed 0).

(** The claim of C2 on batch sizes: every batch except possibly the
    final one has [batch_size] rows. *)
Definition all_but_last_full (batch_size : Z) (sizes : list nat) : Prop :=
  ∀ i size, sizes !! i = Some size → (S i < length sizes)%nat → Z.of_nat size = batch_size.

(** The records of a batch: row [i] is the list of the named cells at
    position [i] of each value. *)
Definition batch_record_at (b : Batch) (i : nat) : list (string * option cell) :=
  prod_map id (λ v, value_cells v !! i) <$> b.

Definition batch_records (b : Batch) : list (list (string * option cell)) :=
  batch_record_at b <$> seq 0 (batch_rows b).

(** A row of the table as iteration returns it. *)
Definition returned_row (row : list (string * option scalar)) : list (string * option cell) :=
  (λ entry : string * option scalar, (entry.1, cell_of <$> entry.2)) <$> row.

(** A table of one integer that float32 cannot represent. *)
Definition disk_big : World :=
  mkWorld {["big.parquet" := Parquet [("id", ColInt [16777217])]]} ∅ 0.

(** Two file systems with the same directories and the same files, except
    possibly under names that end in [.parquet]: the names of the
    temporary files. *)
Definition agree_off_temps (w w' : World) : Prop :=
  dirs w = dirs w' ∧ ∀ p, Py.endswith p ".parquet" = false → files w !! p = files w' !! p.

(** [ten] in a single compressed shard, opened with shuffling on and
    seed 0. *)
Definition ten_shuffled : Dataset :=
  mkDataset "out" 3 true 0 4 custom_streaming (JInt 10)
    (JObj [("id", JStr "int"); ("ok", JStr "bool"); ("name", JStr "str")])
    (JArr [JStr "shard.00000.parquet.zstd"]) (rng_seed 0).

(** The dataset of [disk_bad_shard], as it is opened. *)
Definition bad_shard_dataset : Dataset :=
  mkDataset "d" 32 false 0 1000 custom_streaming (JInt 1) (JObj [])
    (JArr [JStr "shard.00000.parquet.zstd"]) (rng_seed 0).

(** [ten_single] with a negative chunk size. *)
Definition ten_negative_chunk : Dataset :=
  mkDataset "out" 3 false 0 (-4) custom_streaming (JInt 10) (JObj [])
    (JArr [JStr "shard.00000.parquet"]) (rng_seed 0).

(** [ten] converted into three shards, read in chunks of four. *)
Definition ten_sharded : Dataset :=
  mkDataset "out" 3 false 0 4 custom_streaming (JInt 10)
    (JObj [("id", JStr "int"); ("ok", JStr "bool"); ("name", JStr "str")])
    (JArr [JStr "shard.00000.parquet"; JStr "shard.00001.parquet";
           JStr "shard.00002.parquet"]) (rng_seed 0).

Section reading.
Context `{RandomGen}.

(** The dataset is a directory whose first listed shard stores
    [chunk_data]. *)
Definition first_shard_holds (self : Dataset) (chunk_data : DataFrame) (w : World) : Prop :=
  self_format self = custom_streaming
  ∧ ∃ path, first_shard_path (self_data_path self) (self_shards self) = Ok path
      ∧ files w !! path = Some (shard_blob path chunk_data).

(** The permutation that an iteration of [self] walks. *)
Definition iter_indices (self : Dataset) (n : Z) : list Z :=
  if self_shuffle self then (rng_shuffle (Py.range1 n) (self_rng self)).1
  else Py.range1 n.

(** Whether [_load_chunk] decompresses, and so writes a temporary file. *)
Definition reads_compressed (self : Dataset) : bool :=
  match self_format self with
  | custom_streaming =>
      match first_shard_path (self_data_path self) (self_shards self) with
      | Ok shard_path => Py.endswith shard_path ".zstd"
      | Raise _ => false
      end
  | _ => false
  end.

(** The file systems that an iteration started in [w] passes through:
    [w] itself, or [w] up to temporary files when shards are decompressed. *)
Definition reached_from (self : Dataset) (w w' : World) : Prop :=
  if reads_compressed self then agree_off_temps w w' else w' = w.

End reading.

(** * Properties *)

(** ** Strings and paths *)

Section strings.
Implicit Types s t u : string.

Lemma app_cons c s t : String c s +:+ t = String c (s +:+ t).
Proof. reflexivity. Qed.

Lemma app_nil_r_s s : s +:+ "" = s.
Proof. induction s as [|c s IH]; [done|]. by rewrite app_cons, IH. Qed.

Lemma app_assoc_s s t u : (s +:+ t) +:+ u = s +:+ t +:+ u.
Proof. induction s as [|c s IH]; [done|]. by rewrite !app_cons, IH. Qed.

Lemma app_length_s s t : String.length (s +:+ t) = (String.length s + String.length t)%nat.
Proof. induction s as [|c s IH]; [done|]. rewrite app_cons. simpl. by rewrite IH. Qed.

Lemma rev_app_spec s acc : String.rev_app s acc = String.rev s +:+ acc.
Proof.
  revert acc. induction s as [|c s IH]; intros acc; [done|].
  unfold String.rev. simpl. rewrite (IH (String c "")), IH.
  by rewrite app_assoc_s.
Qed.

Lemma rev_app_distr_s s t : String.rev (s +:+ t) = String.rev t +:+ String.rev s.
Proof.
  induction s as [|c s IH]; [by rewrite app_nil_r_s|].
  rewrite app_cons. unfold String.rev at 1 3. simpl.
  rewrite !rev_app_spec, IH. by rewrite app_assoc_s.
Qed.

Lemma prefix_app s t : String.prefix s (s +:+ t) = true.
Proof.
  induction s as [|c s IH]; [by destruct t|].
  rewrite app_cons. simpl. by destruct (ascii_dec c c).
Qed.

Lemma endswith_app s suffix : Py.endswith (s +:+ suffix) suffix = true.
Proof. unfold Py.endswith. by rewrite rev_app_distr_s, prefix_app. Qed.

Lemma endswith_parquet_zstd s : Py.endswith (s +:+ ".parquet") ".zstd" = false.
Proof. unfold Py.endswith. by rewrite rev_app_distr_s. Qed.

Lemma path_join_relative a b :
  String.prefix "/" b = false → Py.path_join a b = dir_prefix a +:+ b.
Proof.
  intros Hb. unfold Py.path_join, dir_prefix. rewrite Hb.
  destruct (decide (a = "")); [done|].
  destruct (Py.endswith a "/"); [done|]. by rewrite app_assoc_s.
Qed.

End strings.

(** ** Zero-padded ordinals are distinct *)

Lemma uint_of_zeros k s :
  NilEmpty.uint_of_string (Py.zeros k +:+ s)
  = Nat.iter k (option_map Decimal.D0) (NilEmpty.uint_of_string s).
Proof.
  induction k as [|k IH]; [done|].
  cbn [Py.zeros Nat.iter]. rewrite app_cons. cbn [NilEmpty.uint_of_string].
  rewrite IH. simpl. by destruct (Nat.iter k _ _).
Qed.

Lemma parse_fmt_05d n : parse_ordinal (Py.fmt_05d n) = Some n.
Proof.
  unfold parse_ordinal, Py.fmt_05d, Py.decimal.
  rewrite uint_of_zeros, NilEmpty.usu.
  generalize (5 - String.length (NilEmpty.string_of_uint (Nat.to_uint n)))%nat.
  intros k. induction k as [|k IH]; simpl.
  - by rewrite DecimalNat.Unsigned.of_to.
  - destruct (Nat.iter k _ _) as [d|]; [exact IH|done].
Qed.

Lemma fmt_05d_inj n m : Py.fmt_05d n = Py.fmt_05d m → n = m.
Proof.
  intros E. apply (f_equal parse_ordinal) in E.
  rewrite !parse_fmt_05d in E. by injection E.
Qed.

Lemma rev_involutive_s s : String.rev (String.rev s) = s.
Proof.
  induction s as [|c s IH]; [done|].
  change (String c s) with (String c "" +:+ s) at 1.
  by rewrite rev_app_distr_s, rev_app_distr_s, IH.
Qed.

Lemma app_inv_tail_s s t u : s +:+ u = t +:+ u → s = t.
Proof.
  intros E. apply (f_equal String.rev) in E. rewrite !rev_app_distr_s in E.
  apply (inj _) in E. by rewrite <- (rev_involutive_s s), E, rev_involutive_s.
Qed.

(** ** Slices and ranges *)

Section lists.
Context {A : Type}.
Implicit Types l : list A.

Lemma slice_lookup l lo hi (j : nat) :
  0 ≤ lo → 0 ≤ hi →
  Py.slice l lo hi !! j
  = if decide (lo + Z.of_nat j < hi) then l !! (Z.to_nat lo + j)%nat else None.
Proof.
  intros Hlo Hhi. unfold Py.slice, Py.clamp, Py.len.
  destruct (Z.ltb_spec lo 0); [lia|].
  destruct (Z.ltb_spec hi 0); [lia|].
  - destruct (decide (lo + Z.of_nat j < hi)) as [Hj|Hj].
    + destruct (decide (Z.to_nat lo + j < length l)%nat) as [Hin|Hout].
      * rewrite lookup_take_lt by lia. rewrite lookup_drop. f_equal. lia.
      * rewrite (lookup_ge_None_2 l) by lia.
        apply lookup_ge_None_2. rewrite length_take, length_drop. lia.
    + apply lookup_ge_None_2. rewrite length_take. lia.
Qed.

Lemma slice_length l lo hi :
  0 ≤ lo → lo ≤ hi →
  Z.of_nat (length (Py.slice l lo hi)) = Z.min hi (Py.len l) - Z.min lo (Py.len l).
Proof.
  intros Hlo Hhi. unfold Py.slice, Py.clamp, Py.len.
  destruct (Z.ltb_spec lo 0); [lia|]. destruct (Z.ltb_spec hi 0); [lia|].
  rewrite length_take, length_drop. lia.
Qed.

Lemma slice_all l hi : Py.len l ≤ hi → Py.slice l 0 hi = l.
Proof.
  intros Hhi. unfold Py.len in Hhi. apply list_eq. intros j.
  rewrite slice_lookup by lia. simpl.
  case_decide; [done|]. symmetry. apply lookup_ge_None_2. lia.
Qed.

End lists.

Lemma range_windows (n : nat) step :
  0 < step →
  Py.range 0 (Z.of_nat n) step
  = Ok ((λ k : nat, Z.of_nat k * step) <$> seq 0 (ceil_div n step)).
Proof.
  intros Hstep. unfold Py.range, Py.range_len, ceil_div.
  destruct (Z.eqb_spec step 0); [lia|].
  destruct (Z.ltb_spec 0 step); [|lia].
  f_equal. destruct (Z.ltb_spec 0 (Z.of_nat n)).
  - replace (Z.of_nat n + step - 1) with (Z.of_nat n - 0 - 1 + 1 * step) by lia.
    by rewrite Z.div_add by lia.
  - replace (Z.of_nat n) with 0 by lia. simpl.
    by rewrite Z.div_small by lia.
Qed.

Lemma ceil_div_bounds (n : nat) cs (k : nat) :
  0 < cs → (k < ceil_div n cs)%nat ↔ Z.of_nat k * cs < Z.of_nat n.
Proof.
  intros Hcs. unfold ceil_div.
  assert (0 ≤ (Z.of_nat n + cs - 1) / cs) by (apply Z.div_pos; lia).
  rewrite Nat2Z.inj_lt, Z2Nat.id by done.
  split; intros Hk.
  - apply Z.lt_le_pred in Hk.
    assert (Z.of_nat k * cs ≤ Z.of_nat n - 1); [|lia].
    apply Z.le_trans with (((Z.of_nat n + cs - 1) / cs - 1) * cs); [nia|].
    pose proof (Z.mul_div_le (Z.of_nat n + cs - 1) cs Hcs). lia.
  - assert (Z.of_nat k + 1 ≤ (Z.of_nat n + cs - 1) / cs); [|lia].
    apply Z.div_le_lower_bound; lia.
Qed.

Lemma slice_fmap {A B} (f : A → B) (l : list A) lo hi :
  Py.slice (f <$> l) lo hi = f <$> Py.slice l lo hi.
Proof. unfold Py.slice, Py.len. by rewrite length_fmap, fmap_take, fmap_drop. Qed.

Lemma cells_slice c lo hi :
  cells (col_lift (λ A l, Py.slice l lo hi) c) = Py.slice (cells c) lo hi.
Proof. destruct c; simpl; by rewrite slice_fmap. Qed.

(** ** The shard writer *)

Section writer.
Variables (df : DataFrame) (output_dir compression : string) (chunk_size : Z).
Hypothesis chunk_size_pos : 0 < chunk_size.

Let ordinal (i : Z) : nat := Z.to_nat (i / chunk_size).
Let raw_path (i : Z) : string := Py.path_join output_dir (shard_file i chunk_size).
Let final_name (i : Z) : string := nth_shard_name compression (ordinal i).
Let final_path (i : Z) : string := Py.path_join output_dir (final_name i).
Let frame (i : Z) : DataFrame := iloc_slice df i (i + chunk_size).

Lemma raw_path_eq i :
  raw_path i = (dir_prefix output_dir +:+ "shard." +:+ Py.fmt_05d (ordinal i)) +:+ ".parquet".
Proof.
  unfold raw_path, shard_file. rewrite path_join_relative by done.
  by rewrite !app_assoc_s.
Qed.

Lemma final_path_eq i :
  final_path i = if decide (compression = "zstd") then raw_path i +:+ ".zstd" else raw_path i.
Proof.
  unfold final_path, final_name, nth_shard_name.
  rewrite path_join_relative by done. rewrite raw_path_eq.
  destruct (decide (compression = "zstd")); rewrite ?app_nil_r_s, ?app_assoc_s; done.
Qed.

Lemma raw_path_inj i j : raw_path i = raw_path j → ordinal i = ordinal j.
Proof.
  rewrite !raw_path_eq. intros E%app_inv_tail_s.
  do 2 apply (inj _) in E. by apply fmt_05d_inj.
Qed.

Lemma raw_path_not_zstd i s : raw_path i ≠ s +:+ ".zstd".
Proof.
  intros E. apply (f_equal (λ p, Py.endswith p ".zstd")) in E.
  by rewrite raw_path_eq, endswith_parquet_zstd, endswith_app in E.
Qed.

Lemma final_path_inj i j : final_path i = final_path j → ordinal i = ordinal j.
Proof.
  rewrite !final_path_eq. destruct (decide (compression = "zstd")).
  - intros E%app_inv_tail_s. by apply raw_path_inj.
  - apply raw_path_inj.
Qed.

(** The files after the loop body has run for the window at [i]. *)
Lemma write_shard_spec i w :
  ∃ w', write_shard df output_dir compression chunk_size i w
        = (Ok (if decide (compression = "zstd")
               then shard_file i chunk_size +:+ ".zstd" else shard_file i chunk_size), w')
    ∧ dirs w' = dirs w ∧ tmp_counter w' = tmp_counter w
    ∧ files w' !! final_path i = Some (encode compression (frame i))
    ∧ ∀ q, q ≠ raw_path i → q ≠ raw_path i +:+ ".zstd" → files w' !! q = files w !! q.
Proof.
  unfold write_shard, encode. fold (raw_path i) (frame i).
  rewrite final_path_eq.
  destruct (decide (compression = "zstd")).
  - unfold read_file, write_file. simpl. rewrite lookup_insert_eq. simpl.
    eexists. split; [done|]. simpl. repeat split.
    + rewrite lookup_delete_ne by apply raw_path_not_zstd.
      by rewrite lookup_insert_eq.
    + intros q Hq1 Hq2.
      by rewrite lookup_delete_ne, !lookup_insert_ne.
  - eexists. split; [done|]. simpl. repeat split.
    + by rewrite lookup_insert_eq.
    + intros q Hq1 Hq2. by rewrite lookup_insert_ne.
Qed.

Lemma shard_file_name i :
  (if decide (compression = "zstd")
   then shard_file i chunk_size +:+ ".zstd" else shard_file i chunk_size) = final_name i.
Proof.
  unfold final_name, nth_shard_name, shard_file. fold (ordinal i).
  destruct (decide (compression = "zstd")); rewrite ?app_nil_r_s, ?app_assoc_s; done.
Qed.

Lemma write_shards_spec starts shards w :
  NoDup (ordinal <$> starts) →
  ∃ w', write_shards df output_dir compression chunk_size starts shards w
        = (Ok (shards ++ (final_name <$> starts)), w')
    ∧ dirs w' = dirs w ∧ tmp_counter w' = tmp_counter w
    ∧ (∀ i, i ∈ starts → files w' !! final_path i = Some (encode compression (frame i)))
    ∧ ∀ q, (∀ i, i ∈ starts → q ≠ raw_path i ∧ q ≠ raw_path i +:+ ".zstd") →
           files w' !! q = files w !! q.
Proof.
  revert shards w. induction starts as [|i rest IH]; intros shards w Hnd.
  { exists w. simpl. rewrite app_nil_r. repeat split; try done.
    intros i Hi. by apply elem_of_nil in Hi. }
  rewrite fmap_cons in Hnd. apply NoDup_cons in Hnd as [Hi Hnd].
  destruct (write_shard_spec i w) as (w1 & E1 & Hd1 & Ht1 & Hf1 & Ho1).
  destruct (IH (shards ++ [final_name i]) w1 Hnd) as (w2 & E2 & Hd2 & Ht2 & Hf2 & Ho2).
  exists w2. cbn [write_shards]. rewrite E1, shard_file_name, E2.
  rewrite <- app_assoc. repeat split; [congruence..| |].
  - intros j [->|Hj]%elem_of_cons; [|by apply Hf2].
    rewrite Ho2; [done|]. intros j Hj.
    assert (ordinal i ≠ ordinal j) as Hne.
    { intros E. apply Hi. rewrite E. by apply list_elem_of_fmap_2. }
    rewrite final_path_eq. destruct (decide (compression = "zstd")); split.
    + symmetry. apply raw_path_not_zstd.
    + intros E%app_inv_tail_s. by apply Hne, raw_path_inj.
    + intros E. by apply Hne, raw_path_inj.
    + apply raw_path_not_zstd.
  - intros q Hq. rewrite Ho2 by (intros j Hj; apply Hq; by right).
    destruct (Hq i) as [??]; [by left|]. by apply Ho1.
Qed.

End writer.

(** ** Rows of a window *)

Lemma df_len_slice df lo hi :
  0 ≤ lo → lo ≤ hi →
  Z.of_nat (df_len (iloc_slice df lo hi))
  = Z.min hi (Z.of_nat (df_len df)) - Z.min lo (Z.of_nat (df_len df)).
Proof.
  intros Hlo Hhi. destruct df as [|[name c] df]; simpl; [lia|].
  unfold col_len. rewrite cells_slice. by apply slice_length.
Qed.

Lemma row_at_slice df lo hi (j : nat) :
  0 ≤ lo → 0 ≤ hi → lo + Z.of_nat j < hi →
  row_at (iloc_slice df lo hi) j = row_at df (Z.to_nat lo + j).
Proof.
  intros Hlo Hhi Hj. unfold row_at, iloc_slice.
  rewrite <- list_fmap_compose. apply list_fmap_ext. intros i [name c] _. simpl.
  f_equal. rewrite cells_slice, slice_lookup by done. by rewrite decide_True.
Qed.

Lemma rows_slice df lo hi :
  0 ≤ lo → lo ≤ hi →
  rows (iloc_slice df lo hi)
  = row_at df <$> seq (Z.to_nat lo) (df_len (iloc_slice df lo hi)).
Proof.
  intros Hlo Hhi. unfold rows.
  pose proof (df_len_slice df lo hi Hlo Hhi) as Hlen.
  rewrite <- (Nat.add_0_r (Z.to_nat lo)), <- fmap_add_seq, <- list_fmap_compose.
  apply list_fmap_ext. intros i j [-> Hj]%lookup_seq. simpl.
  apply row_at_slice; lia.
Qed.

(** Consecutive windows of [cs] rows tile [0 .. n). *)
Lemma windows_tile (n : nat) cs (len : nat → nat) :
  0 < cs →
  (∀ k : nat, Z.of_nat k * cs < Z.of_nat n →
     Z.of_nat (len k) = Z.min cs (Z.of_nat n - Z.of_nat k * cs)) →
  concat ((λ k : nat, seq (Z.to_nat (Z.of_nat k * cs)) (len k)) <$> seq 0 (ceil_div n cs))
  = seq 0 n.
Proof.
  intros Hcs Hlen.
  assert (∀ m, (m ≤ ceil_div n cs)%nat →
    concat ((λ k : nat, seq (Z.to_nat (Z.of_nat k * cs)) (len k)) <$> seq 0 m)
    = seq 0 (Z.to_nat (Z.min (Z.of_nat n) (Z.of_nat m * cs)))) as Hm.
  { induction m as [|m IH]; intros Hle.
    - simpl. by rewrite Z.min_r by lia.
    - rewrite seq_S, fmap_app, concat_app, IH by lia. simpl. rewrite app_nil_r.
      assert (Z.of_nat m * cs < Z.of_nat n) as Hin by (apply ceil_div_bounds; lia).
      specialize (Hlen m Hin).
      replace (Z.to_nat (Z.min (Z.of_nat n) (Z.of_nat m * cs)))
        with (Z.to_nat (Z.of_nat m * cs)) by lia.
      rewrite <- seq_app. f_equal. lia. }
  rewrite Hm by done. f_equal.
  assert (¬ Z.of_nat (ceil_div n cs) * cs < Z.of_nat n); [|lia].
  rewrite <- ceil_div_bounds by done. lia.
Qed.

Lemma load_input_files p w1 w2 df :
  files w1 = files w2 → load_input p w1 = Ok df → load_input p w2 = Ok df.
Proof.
  intros Hf. unfold load_input, read_csv, read_parquet, read_json_lines, read_file.
  rewrite <- Hf. destruct (files w1 !! p); [done|].
  repeat case_match; done.
Qed.

Lemma sum_list_concat_length {A} (ls : list (list A)) :
  sum_list (length <$> ls) = length (concat ls).
Proof.
  induction ls as [|l ls IH]; [done|].
  rewrite fmap_cons. cbn [concat]. rewrite length_app, <- IH. done.
Qed.

(** The state a conversion with a positive chunk size leaves behind. *)
Lemma convert_to_streaming_format_spec df input_path output_dir compression chunk_size w :
  0 < chunk_size →
  load_input input_path w = Ok df →
  files w !! output_dir = None →
  let n := df_len df in
  let m := ceil_div n chunk_size in
  let window (k : nat) :=
    iloc_slice df (Z.of_nat k * chunk_size) (Z.of_nat k * chunk_size + chunk_size) in
  let shards := nth_shard_name compression <$> seq 0 m in
  ∃ w',
    convert_to_streaming_format input_path output_dir compression chunk_size w = (Ok (), w')
    ∧ json_load (Py.path_join output_dir "index.json") w'
      = Ok (make_index n (column_types df) shards)
    ∧ length shards = m ∧ NoDup shards
    ∧ (∀ k, (k < m)%nat →
         files w' !! Py.path_join output_dir (nth_shard_name compression k)
         = Some (encode compression (window k)))
    ∧ (∀ k, (S k < m)%nat → Z.of_nat (df_len (window k)) = chunk_size)
    ∧ sum_list (df_len ∘ window <$> seq 0 m) = n
    ∧ concat (rows ∘ window <$> seq 0 m) = rows df.
Proof.
  intros Hcs Hin Hout n m window shards.
  set (starts := (λ k : nat, Z.of_nat k * chunk_size) <$> seq 0 m).
  assert (∀ k : nat, Z.to_nat (Z.of_nat k * chunk_size / chunk_size) = k) as Hord.
  { intros k. rewrite Z.div_mul by lia. lia. }
  assert (NoDup ((λ i, Z.to_nat (i / chunk_size)) <$> starts)) as Hnd.
  { unfold starts. rewrite <- list_fmap_compose.
    rewrite (list_fmap_ext _ id (seq 0 m)).
    - rewrite list_fmap_id. apply NoDup_seq.
    - intros ? k _. apply Hord. }
  destruct (write_shards_spec df output_dir compression chunk_size starts []
              (mkWorld (files w) ({[output_dir]} ∪ dirs w) (tmp_counter w)) Hnd)
    as (w1 & E1 & _ & _ & Hf1 & Ho1).
  assert ((λ i, nth_shard_name compression (Z.to_nat (i / chunk_size))) <$> starts = shards)
    as Hnames.
  { unfold starts, shards. rewrite <- list_fmap_compose. apply list_fmap_ext.
    intros ? k _. simpl. by rewrite Hord. }
  rewrite Hnames in E1. simpl in E1.
  assert (∀ k, (k < m)%nat → Z.of_nat k * chunk_size < Z.of_nat n) as Hk.
  { intros k. by apply ceil_div_bounds. }
  assert (∀ k, (k < m)%nat →
            Z.of_nat (df_len (window k))
            = Z.min chunk_size (Z.of_nat n - Z.of_nat k * chunk_size)) as Hlen.
  { intros k Hkm. specialize (Hk k Hkm). unfold window.
    rewrite df_len_slice by lia. fold n. lia. }
  assert (concat (rows ∘ window <$> seq 0 m) = rows df) as Hrows.
  { unfold rows at 2. fold n.
    rewrite <- (windows_tile n chunk_size (df_len ∘ window) Hcs).
    - fold m. generalize (seq 0 m). intros ks.
      induction ks as [|k ks IH]; [done|].
      rewrite !fmap_cons. cbn [concat]. rewrite fmap_app, <- IH. f_equal.
      unfold window. apply rows_slice; lia.
    - intros k Hkn. apply Hlen. by apply ceil_div_bounds. }
  exists (write_file (Py.path_join output_dir "index.json")
            (JsonText (make_index n (column_types df) shards)) w1).
  repeat split.
  - unfold convert_to_streaming_format, makedirs. rewrite Hout.
    rewrite (load_input_files _ w _ df) by done.
    fold n. rewrite range_windows by done. fold m starts. by rewrite E1.
  - unfold json_load, read_file, write_file. simpl. by rewrite lookup_insert_eq.
  - unfold shards. by rewrite length_fmap, length_seq.
  - rewrite <- Hnames. apply NoDup_fmap_2_strong; [|by eapply NoDup_fmap_1].
    intros i j Hi Hj E. unfold starts in Hi, Hj.
    apply list_elem_of_fmap in Hi as (ki & -> & _).
    apply list_elem_of_fmap in Hj as (kj & -> & _).
    rewrite !Hord in E. unfold nth_shard_name in E.
    apply (inj _), app_inv_tail_s, fmt_05d_inj in E. by subst.
  - intros k Hkm. unfold write_file. simpl.
    rewrite lookup_insert_ne.
    + specialize (Hf1 (Z.of_nat k * chunk_size)). rewrite Hord in Hf1.
      apply Hf1. unfold starts. apply list_elem_of_fmap.
      exists k. split; [done|]. apply elem_of_seq. lia.
    + rewrite !path_join_relative by done. intros E%(inj _). done.
  - intros k Hkm. rewrite Hlen by lia.
    assert (Z.of_nat (S k) * chunk_size < Z.of_nat n) by (apply Hk; lia). lia.
  - rewrite list_fmap_compose. unfold df_len at 1.
    transitivity (length (concat (rows ∘ window <$> seq 0 m))).
    + rewrite <- sum_list_concat_length, <- list_fmap_compose, <- list_fmap_compose.
      f_equal. apply list_fmap_ext. intros ? k _. simpl.
      unfold rows. by rewrite length_fmap, length_seq.
    + rewrite Hrows. unfold rows. by rewrite length_fmap, length_seq.
  - done.
Qed.



(** ** Schema inference *)

Lemma column_tag_five c : column_tag c ∈ five_tags.
Proof. destruct c; apply (bool_decide_unpack _); vm_compute; exact I. Qed.

Lemma dict_set_fresh {V} (d : list (string * V)) k v :
  k ∉ d.*1 → Py.dict_set d k v = d ++ [(k, v)].
Proof.
  induction d as [|[k' v'] d IH]; intros Hk; simpl; [done|].
  rewrite fmap_cons in Hk. apply not_elem_of_cons in Hk as [Hne Hk].
  rewrite decide_False by done. by rewrite IH.
Qed.

Lemma column_types_acc df acc :
  NoDup (acc.*1 ++ df.*1) →
  foldl (λ columns nc, Py.dict_set columns nc.1 (column_tag nc.2)) acc df
  = acc ++ (prod_map id column_tag <$> df).
Proof.
  revert acc. induction df as [|[name c] df IH]; intros acc Hnd; simpl.
  { by rewrite app_nil_r. }
  rewrite fmap_cons in Hnd. simpl in Hnd.
  apply NoDup_app in Hnd as (Hacc & Hdisj & Hdf).
  rewrite dict_set_fresh by (intros Hin; apply (Hdisj _ Hin); by left).
  rewrite IH.
  - by rewrite <- app_assoc.
  - rewrite fmap_app. simpl. rewrite <- app_assoc. simpl.
    apply NoDup_app. repeat split; [done| |done].
    intros x Hx. apply Hdisj. exact Hx.
Qed.

(** C7, as the code has it.  Every column of the table is recorded, in
    order, under exactly one of five tags: [int], [float], [bool],
    [datetime] for a datetime column, and [str] for every other column. *)
Theorem column_types_five_tags (df : DataFrame) :
  NoDup df.*1 →
  column_types df = prod_map id column_tag <$> df
  ∧ (column_types df).*1 = df.*1
  ∧ Forall (λ entry, entry.2 ∈ five_tags) (column_types df)
  ∧ ∀ name c, (name, c) ∈ df →
      Py.dict_get (column_types df) name
      = Some (match c with
              | ColInt _ => "int" | ColFloat _ => "float" | ColBool _ => "bool"
              | ColDatetime _ => "datetime" | ColObject _ => "str"
              end).
Proof.
  intros Hnd.
  assert (column_types df = prod_map id column_tag <$> df) as E.
  { unfold column_types. by rewrite column_types_acc. }
  rewrite E. repeat split.
  - rewrite <- list_fmap_compose. apply list_fmap_ext. by intros ? [??] _.
  - apply Forall_fmap, Forall_forall. intros [name c] _. apply column_tag_five.
  - intros name c Hin. clear E.
    induction df as [|[name' c'] df IH]; [by apply elem_of_nil in Hin|].
    rewrite fmap_cons in Hnd. apply NoDup_cons in Hnd as [Hfresh Hnd].
    simpl. apply elem_of_cons in Hin as [[= <- <-]|Hin].
    + rewrite decide_True by done. by destruct name; destruct c.
    + rewrite decide_False.
      * by apply IH.
      * intros ->. apply Hfresh. by apply (list_elem_of_fmap_2 fst _ (name, c)).
Qed.

Lemma column_types_five_tags_witness :
  NoDup ten.*1 ∧ column_types ten = [("id", "int"); ("ok", "bool"); ("name", "str")].
Proof.
  assert (NoDup ten.*1) as Hnd by (apply (bool_decide_unpack _); vm_compute; exact I).
  split; [exact Hnd|].
  destruct (column_types_five_tags ten Hnd) as (E & _). rewrite E. reflexivity.
Defined.

(** C7 as stated fails: a datetime column gets the tag [datetime], which
    is none of [int], [float], [bool], [str]. *)
Lemma datetime_tag_outside_four :
  ¬ Forall (λ entry : string * string, entry.2 ∈ four_tags)
      (column_types [("when", ColDatetime [0])]).
Proof.
  intros Hall. apply Forall_inv in Hall. revert Hall.
  apply (bool_decide_unpack (_ ∉ _)). vm_compute. exact I.
Qed.

(** ** Loading the manifest *)

Section manifest.
Context `{RandomGen}.

(** C6, as the code has it.  When [index.json] parses to an object the
    dataset is constructed whatever the object holds: a field that is
    present is taken as it is, without validation, and a missing one is
    replaced by its default ([0], [{}], [[]]). *)
Theorem init_substitutes_defaults data_path batch_size shuffle seed chunk_size fresh w fields :
  isdir data_path w = true →
  json_load (Py.path_join data_path "index.json") w = Ok (JObj fields) →
  ∃ ds, __init__ data_path batch_size shuffle seed chunk_size fresh w = Ok ds
    ∧ self_format ds = custom_streaming
    ∧ self_length ds = default (JInt 0) (Py.dict_get fields "samples")
    ∧ self_columns ds = default (JObj []) (Py.dict_get fields "columns")
    ∧ self_shards ds = default (JArr []) (Py.dict_get fields "shards").
Proof.
  intros Hdir Hload. unfold __init__. rewrite Hdir.
  assert (exists_ (Py.path_join data_path "index.json") w = true) as ->.
  { unfold exists_. unfold json_load, read_file in Hload.
    destruct (files w !! Py.path_join data_path "index.json") eqn:E.
    - by rewrite bool_decide_true by done.
    - by case_decide. }
  unfold _load_index. rewrite Hload. simpl. eexists. split; [done|]. done.
Qed.

End manifest.

Lemma init_substitutes_defaults_witness :
  isdir "d" disk_empty_index = true
  ∧ json_load (Py.path_join "d" "index.json") disk_empty_index = Ok (JObj [])
  ∧ ∃ ds, __init__ "d" 32 true (Some 7) 1000 0 disk_empty_index = Ok ds
      ∧ self_length ds = JInt 0.
Proof.
  assert (isdir "d" disk_empty_index = true) as H1 by reflexivity.
  assert (json_load (Py.path_join "d" "index.json") disk_empty_index = Ok (JObj []))
    as H2 by reflexivity.
  repeat split; [done..|].
  destruct (init_substitutes_defaults "d" 32 true (Some 7) 1000 0 disk_empty_index [] H1 H2)
    as (ds & E & _ & Hlen & _).
  exists ds. split; [exact E|exact Hlen].
Defined.

(** C6 as stated fails: with every required field absent from the
    manifest, loading succeeds and the defaults are substituted. *)
Lemma load_index_without_fields :
  _load_index "d" disk_empty_index = Ok (JInt 0, JObj [], JArr []).
Proof. reflexivity. Qed.

(** ** The chunk loader reads the first shard only *)

(** C1 at a failing input.  [ten] is converted into three shards of four,
    four and two rows; loading the range [4, 8) returns the rows of the
    first shard, [0 .. 3], not rows [4 .. 7]. *)
Theorem load_chunk_returns_first_shard :
  (ds ← open_ten "zstd" 4 3 false 4; (_load_chunk ds 4 8 (disk_ten "zstd" 4)).1)
  = Ok (iloc_slice ten 0 4)
  ∧ iloc_slice ten 0 4 ≠ iloc_slice ten 4 8.
Proof. split; [by vm_compute|]. vm_compute. discriminate. Qed.

(** C5 at a failing input.  On the same dataset [get(9)] returns the
    second row written (the row at offset [9 - 8] of the first shard), not
    the last one; and read with the default chunk size, [get(5)] raises
    [IndexError] although [0 <= 5 < 10]. *)
Theorem getitem_reads_first_shard :
  (ds ← open_ten "zstd" 4 3 false 4; (__getitem__ ds 9 (disk_ten "zstd" 4)).1)
  = Ok [("id", SInt 1); ("ok", SBool false); ("name", SObject "b")]
  ∧ row_at ten 9 = [("id", Some (SInt 9)); ("ok", Some (SBool false)); ("name", Some (SObject "j"))]
  ∧ (ds ← open_ten "zstd" 4 3 false 1000; (__getitem__ ds 5 (disk_ten "zstd" 4)).1)
    = Raise IndexError.
Proof. repeat split; by vm_compute. Qed.

(** ** The temporary file of a compressed read *)

(** C9 at a failing input.  The shard decompresses, the temporary file is
    written, [read_parquet] raises, and [os.unlink] is not reached: the
    temporary file is still there after the call. *)
Theorem load_chunk_leaks_temp_file :
  (ds ← __init__ "d" 32 false (Some 0) 1000 0 disk_bad_shard;
   let '(r, w) := _load_chunk ds 0 1 disk_bad_shard in
   Ok (r, files w !! temp_name 0, files disk_bad_shard !! temp_name 0))
  = Ok (Raise ArrowInvalid, Some (Garbage "truncated"), None).
Proof. by vm_compute. Qed.

(** ** Dictionaries *)

Section dicts.
Context {V : Type}.
Implicit Types d : list (string * V).

Lemma dict_get_set d k v k' :
  Py.dict_get (Py.dict_set d k v) k' = if decide (k = k') then Some v else Py.dict_get d k'.
Proof.
  induction d as [|[k0 v0] d IH]; simpl.
  - by destruct (decide (k = k')).
  - destruct (decide (k0 = k)) as [->|Hne]; simpl.
    + by destruct (decide (k = k')).
    + destruct (decide (k0 = k')) as [->|]; [by rewrite decide_False by done|done].
Qed.

Lemma dict_set_elem d k v entry :
  entry ∈ Py.dict_set d k v → entry ∈ d ∨ entry = (k, v).
Proof.
  induction d as [|[k0 v0] d IH]; simpl.
  - intros ->%list_elem_of_singleton. by right.
  - destruct (decide (k0 = k)) as [->|Hne].
    + intros [->|Hin]%elem_of_cons; [by right|]. left. by right.
    + intros [->|Hin]%elem_of_cons; [left; by left|].
      destruct (IH Hin) as [?|?]; [left; by right|by right].
Qed.

Lemma dict_get_elem d k v : Py.dict_get d k = Some v → (k, v) ∈ d.
Proof.
  induction d as [|[k0 v0] d IH]; simpl; [done|].
  destruct (decide (k0 = k)) as [->|]; [intros [= ->]; by left|].
  intros Hget. right. by apply IH.
Qed.

End dicts.

(** ** What a batch holds *)

Lemma iloc_take_dtype series idxs col_data :
  iloc_take series idxs = Ok col_data →
  is_numeric_dtype col_data = is_numeric_dtype series.
Proof.
  unfold iloc_take. destruct series; simpl;
    destruct (Py.take_ _ idxs); simpl; intros [= <-]; done.
Qed.

Lemma extract_batch_cut columns idxs acc b :
  extract_batch columns idxs acc = Ok b →
  (∀ name, is_Some (Py.dict_get acc name) ∨ name ∈ columns.*1 → is_Some (Py.dict_get b name))
  ∧ ∀ name v, (name, v) ∈ b →
      (name, v) ∈ acc
      ∨ ∃ series col_data,
          (name, series) ∈ columns
          ∧ iloc_take series idxs = Ok col_data
          ∧ is_numeric_dtype col_data = is_numeric_dtype series
          ∧ returned_as col_data v.
Proof.
  revert acc. induction columns as [|[col series] rest IH]; intros acc; simpl.
  { intros [= ->]. split.
    - intros name [?|Hin]; [done|]. by apply elem_of_nil in Hin.
    - intros name v Hin. by left. }
  destruct (iloc_take series idxs) as [col_data|] eqn:Etake; [|done]. simpl.
  pose proof (iloc_take_dtype _ _ _ Etake) as Hdt.
  assert (∃ v, (if is_numeric_dtype series then Tensor <$> torch_float32 col_data
                else Ok (NdArray col_data)) = Ok v ∧ returned_as col_data v)
    as (v & -> & Hv).
  { rewrite <- Hdt. destruct col_data; simpl; eauto. }
  simpl. intros Hrest. destruct (IH _ Hrest) as [Hkeys Hvals]. split.
  - intros name Hname. apply Hkeys. rewrite dict_get_set.
    destruct (decide (col = name)) as [->|Hne]; [by left|].
    destruct Hname as [?|Hin]; [by left|].
    apply elem_of_cons in Hin as [?|?]; [by subst|by right].
  - intros name v' Hin. destruct (Hvals _ _ Hin) as [Hacc|(s & d & Hs & ? & ? & ?)].
    + apply dict_set_elem in Hacc as [?|[= -> ->]]; [by left|].
      right. exists series, col_data. repeat split; [by left|done..].
    + right. exists s, d. repeat split; [by right|done..].
Qed.

(** ** Selecting rows by position *)

Section selection.
Context {A : Type}.
Implicit Types l : list A.

Lemma at_in_range l i :
  0 ≤ i < Py.len l → ∃ x, Py.at_ l i = Ok x ∧ l !! Z.to_nat i = Some x.
Proof.
  intros Hi. unfold Py.at_, Py.len in *.
  destruct (Z.ltb_spec i 0); [lia|]. destruct (Z.ltb_spec i 0); [lia|].
  destruct (lookup_lt_is_Some_2 l (Z.to_nat i)) as [x Hx]; [lia|].
  exists x. by rewrite Hx.
Qed.

Lemma take_in_range l idxs :
  Forall (λ i, 0 ≤ i < Py.len l) idxs →
  ∃ xs, Py.take_ l idxs = Ok xs ∧ Forall2 (λ i x, l !! Z.to_nat i = Some x) idxs xs.
Proof.
  induction 1 as [|i idxs Hi _ (xs & E & Hxs)]; simpl; [by exists []|].
  destruct (at_in_range l i Hi) as (x & -> & Hx). simpl. rewrite E. simpl.
  exists (x :: xs). split; [done|]. by constructor.
Qed.

Lemma at_out_of_range l i : Py.len l ≤ i → Py.at_ l i = Raise IndexError.
Proof.
  intros Hi. unfold Py.at_, Py.len in *.
  destruct (Z.ltb_spec i 0); [lia|]. destruct (Z.ltb_spec i 0); [lia|].
  by rewrite lookup_ge_None_2 by lia.
Qed.

End selection.

Lemma returned_as_value col_data v : returned_as col_data v ↔ v = batch_value_of col_data.
Proof. by destruct col_data. Qed.

Lemma value_cells_of col_data : value_cells (batch_value_of col_data) = cell_of <$> cells col_data.
Proof.
  destruct col_data; simpl; by rewrite <- ?list_fmap_compose.
Qed.

Lemma iloc_take_cells series idxs :
  Forall (λ i, 0 ≤ i < Z.of_nat (col_len series)) idxs →
  ∃ col_data, iloc_take series idxs = Ok col_data
    ∧ Forall2 (λ i s, cells series !! Z.to_nat i = Some s) idxs (cells col_data).
Proof.
  unfold iloc_take, col_len. destruct series as [xs|xs|xs|xs|xs]; simpl;
    rewrite length_fmap; intros Hin;
    destruct (take_in_range xs idxs Hin) as (sel & -> & Hsel); simpl;
    eexists; (split; [done|]); simpl;
    apply Forall2_fmap_r; (eapply Forall2_impl; [exact Hsel|]);
    intros i x Hx; simpl; by rewrite list_lookup_fmap, Hx.
Qed.

Lemma extract_batch_in_range columns idxs acc (n : nat) :
  Forall (λ i, 0 ≤ i < Z.of_nat n) idxs →
  Forall (λ nc, (n ≤ col_len nc.2)%nat) columns →
  ∃ b, extract_batch columns idxs acc = Ok b.
Proof.
  intros Hidx Hcols. revert acc.
  induction Hcols as [|[col series] rest Hlen _ IH]; intros acc; simpl; [by eexists|].
  destruct (iloc_take_cells series idxs) as (col_data & Etake & _).
  { eapply Forall_impl; [exact Hidx|]. simpl in *. lia. }
  rewrite Etake. simpl. rewrite <- (iloc_take_dtype _ _ _ Etake).
  destruct col_data; simpl; apply IH.
Qed.

(** With distinct column names a batch is the frame's columns, each
    selected and converted. *)
Lemma extract_batch_distinct columns idxs acc (n : nat) :
  NoDup (acc.*1 ++ columns.*1) →
  Forall (λ i, 0 ≤ i < Z.of_nat n) idxs →
  Forall (λ nc, (n ≤ col_len nc.2)%nat) columns →
  ∃ selected,
    extract_batch columns idxs acc = Ok (acc ++ selected)
    ∧ Forall2 (λ nc nv, nc.1 = nv.1
                 ∧ Forall2 (λ i c, cell_of <$> cells nc.2 !! Z.to_nat i = Some c)
                     idxs (value_cells nv.2))
        columns selected.
Proof.
  intros Hnd Hidx Hcols. revert acc Hnd.
  induction Hcols as [|[col series] rest Hlen _ IH]; intros acc Hnd; simpl.
  { exists []. by rewrite app_nil_r. }
  destruct (iloc_take_cells series idxs) as (col_data & Etake & Hsel).
  { eapply Forall_impl; [exact Hidx|]. simpl in *. lia. }
  rewrite Etake. simpl.
  assert ((if is_numeric_dtype series then Tensor <$> torch_float32 col_data
           else Ok (NdArray col_data)) = Ok (batch_value_of col_data)) as ->.
  { rewrite <- (iloc_take_dtype _ _ _ Etake). by destruct col_data. }
  simpl. rewrite fmap_cons in Hnd. simpl in Hnd.
  apply NoDup_app in Hnd as Hnd'. destruct Hnd' as (_ & Hdisj & _).
  rewrite dict_set_fresh by (intros Hin; apply (Hdisj _ Hin); by left).
  destruct (IH (acc ++ [(col, batch_value_of col_data)])) as (selected & E & Hall).
  { rewrite fmap_app. simpl. by rewrite <- app_assoc. }
  exists ((col, batch_value_of col_data) :: selected).
  rewrite E, <- app_assoc. split; [done|].
  constructor; [|done]. split; [done|]. simpl.
  rewrite value_cells_of. apply Forall2_fmap_r.
  eapply Forall2_impl; [exact Hsel|]. intros i s Hs. simpl. by rewrite Hs.
Qed.

(** ** The index plan of an iteration *)

Section windows.
Context {A : Type}.
Implicit Types l : list A.

Lemma window_length l size (k : nat) :
  0 < size → Z.of_nat k * size < Py.len l →
  length (Py.slice l (Z.of_nat k * size) (Z.min (Z.of_nat k * size + size) (Py.len l)))
  = Z.to_nat (Z.min size (Py.len l - Z.of_nat k * size)).
Proof.
  intros Hsize Hk. apply Nat2Z.inj. rewrite slice_length by lia. lia.
Qed.

Lemma windows_lengths l size :
  0 < size → length <$> windows l size = split_sizes (length l) size.
Proof.
  intros Hsize. unfold windows, split_sizes. rewrite <- list_fmap_compose.
  apply list_fmap_ext. intros i k [-> Hk]%lookup_seq. simpl.
  apply window_length; [done|]. by apply ceil_div_bounds.
Qed.

Lemma windows_concat l size : 0 < size → concat (windows l size) = l.
Proof.
  intros Hsize. unfold windows.
  assert (∀ m, (m ≤ ceil_div (length l) size)%nat →
    concat ((λ k : nat, Py.slice l (Z.of_nat k * size)
                          (Z.min (Z.of_nat k * size + size) (Py.len l))) <$> seq 0 m)
    = take (Z.to_nat (Z.min (Py.len l) (Z.of_nat m * size))) l) as Hm.
  { induction m as [|m IH]; intros Hle.
    - simpl. by rewrite Z.min_r by (unfold Py.len; lia).
    - rewrite seq_S, fmap_app, concat_app, IH by lia. simpl. rewrite app_nil_r.
      assert (Z.of_nat m * size < Py.len l) as Hin by (apply ceil_div_bounds; lia).
      apply list_eq. intros j.
      destruct (decide (j < Z.to_nat (Z.of_nat m * size))%nat) as [Hj|Hj].
      + rewrite lookup_app_l by (rewrite length_take; unfold Py.len in *; lia).
        rewrite !lookup_take_lt by lia. done.
      + rewrite lookup_app_r by (rewrite length_take; unfold Py.len in *; lia).
        rewrite length_take, slice_lookup by (unfold Py.len in *; lia).
        unfold Py.len in *.
        destruct (decide (j < Z.to_nat (Z.min (Z.of_nat (length l))
                                           (Z.of_nat (S m) * size)))%nat) as [Hj'|Hj'].
        * rewrite decide_True by lia. rewrite lookup_take_lt by lia. f_equal. lia.
        * rewrite decide_False by lia. by rewrite lookup_take_ge by lia. }
  rewrite Hm by done. apply take_ge.
  assert (¬ Z.of_nat (ceil_div (length l) size) * size < Z.of_nat (length l)).
  { rewrite <- ceil_div_bounds by done. lia. }
  unfold Py.len. lia.
Qed.

End windows.

Lemma slice_Forall {A} (P : A → Prop) (l : list A) lo hi :
  Forall P l → Forall P (Py.slice l lo hi).
Proof. intros Hl. unfold Py.slice. by apply Forall_take, Forall_drop. Qed.

Lemma concat_bind_windows {A} (ls : list (list A)) size :
  0 < size → concat (ls ≫= (λ l, windows l size)) = concat ls.
Proof.
  intros Hsize. induction ls as [|l ls IH]; [done|].
  rewrite bind_cons, concat_app, IH. simpl. by rewrite windows_concat.
Qed.

Lemma batch_plan_concat indices chunk_size batch_size :
  0 < chunk_size → 0 < batch_size →
  concat (batch_plan indices chunk_size batch_size) = indices.
Proof.
  intros Hcs Hbs. unfold batch_plan.
  by rewrite concat_bind_windows, windows_concat.
Qed.

Lemma batch_plan_sizes indices chunk_size batch_size :
  0 < chunk_size → 0 < batch_size →
  length <$> batch_plan indices chunk_size batch_size
  = batch_sizes (length indices) chunk_size batch_size.
Proof.
  intros Hcs Hbs. unfold batch_plan, batch_sizes.
  rewrite <- (windows_lengths indices) by done.
  induction (windows indices chunk_size) as [|l ls IH]; [done|].
  rewrite fmap_cons, !bind_cons, fmap_app, IH. f_equal. by apply windows_lengths.
Qed.

Lemma min_nonempty l : l ≠ [] → ∃ x, Py.min_ l = Ok x.
Proof. destruct l; [done|]. by eexists. Qed.

Lemma max_nonempty l : l ≠ [] → ∃ x, Py.max_ l = Ok x.
Proof. destruct l; [done|]. by eexists. Qed.

(** ** Reading the first shard *)

Lemma temp_name_not_zstd k : Py.endswith (temp_name k) ".zstd" = false.
Proof.
  unfold temp_name. rewrite <- app_assoc_s. apply endswith_parquet_zstd.
Qed.

Section first_shard.
Context `{RandomGen}.

Lemma load_chunk_first_shard self chunk_data start_idx end_idx w :
  first_shard_holds self chunk_data w →
  ∃ w', _load_chunk self start_idx end_idx w = (Ok chunk_data, w')
    ∧ first_shard_holds self chunk_data w'.
Proof.
  intros (Hfmt & path & Hpath & Hfile). unfold _load_chunk, shard_blob in *.
  rewrite Hfmt, Hpath.
  destruct (Py.endswith path ".zstd") eqn:Ez.
  - unfold read_file at 1. rewrite Hfile. simpl.
    unfold read_parquet, read_file, write_temp. simpl.
    rewrite lookup_insert_eq. simpl. eexists. split; [done|].
    split; [done|]. exists path. split; [done|]. unfold remove. simpl.
    assert (temp_name (tmp_counter w) ≠ path) as Hne.
    { intros E. by rewrite <- E, temp_name_not_zstd in Ez. }
    unfold shard_blob. rewrite Ez. by rewrite lookup_delete_ne, lookup_insert_ne.
  - unfold read_parquet, read_file. rewrite Hfile. simpl. exists w.
    split; [done|]. split; [done|]. exists path. unfold shard_blob. by rewrite Ez.
Qed.

Section plan.
Variables (self : Dataset) (chunk_data : DataFrame) (n : nat).
Hypothesis chunk_size_pos : 0 < self_chunk_size self.
Hypothesis batch_size_pos : 0 < self_batch_size self.
Hypothesis rows_present : Forall (λ nc, (n ≤ col_len nc.2)%nat) chunk_data.

Let yields (b : Batch) (idxs : list Z) : Prop := extract_batch chunk_data idxs [] = Ok b.

Lemma iter_batches_plan chunk_indices ks :
  Forall (λ i, 0 ≤ i < Z.of_nat n) chunk_indices →
  ∃ batches,
    iter_batches chunk_data chunk_indices (self_batch_size self)
      ((λ k : nat, Z.of_nat k * self_batch_size self) <$> ks) = (batches, None)
    ∧ Forall2 yields batches
        ((λ k : nat, Py.slice chunk_indices (Z.of_nat k * self_batch_size self)
                       (Z.min (Z.of_nat k * self_batch_size self + self_batch_size self)
                          (Py.len chunk_indices))) <$> ks).
Proof.
  intros Hin. induction ks as [|k ks (batches & E & Hall)]; [by exists []|].
  rewrite !fmap_cons. cbn [iter_batches].
  destruct (extract_batch_in_range chunk_data
              (Py.slice chunk_indices (Z.of_nat k * self_batch_size self)
                 (Z.min (Z.of_nat k * self_batch_size self + self_batch_size self)
                    (Py.len chunk_indices))) [] n) as [b Hb];
    [by apply slice_Forall|done|].
  rewrite Hb, E. exists (b :: batches). split; [done|]. by constructor.
Qed.

Lemma iter_chunks_plan indices ks w :
  first_shard_holds self chunk_data w →
  Forall (λ i, 0 ≤ i < Z.of_nat n) indices →
  Forall (λ k : nat, Z.of_nat k * self_chunk_size self < Py.len indices) ks →
  ∃ batches w',
    iter_chunks self (Py.len indices) indices
      ((λ k : nat, Z.of_nat k * self_chunk_size self) <$> ks) w = (batches, None, w')
    ∧ first_shard_holds self chunk_data w'
    ∧ Forall2 yields batches
        (((λ k : nat, Py.slice indices (Z.of_nat k * self_chunk_size self)
                        (Z.min (Z.of_nat k * self_chunk_size self + self_chunk_size self)
                           (Py.len indices))) <$> ks)
         ≫= λ chunk_indices, windows chunk_indices (self_batch_size self)).
Proof.
  intros Hw Hin Hks. revert w Hw.
  induction Hks as [|k ks Hk _ IH]; intros w Hw; [by exists [], w|].
  rewrite !fmap_cons, bind_cons. cbn [iter_chunks].
  set (chunk_indices := Py.slice indices _ _).
  assert (chunk_indices ≠ []) as Hne.
  { intros E. apply (f_equal length) in E. unfold chunk_indices in E.
    rewrite window_length in E by done. simpl in E. lia. }
  destruct (min_nonempty chunk_indices Hne) as [lo ->].
  destruct (max_nonempty chunk_indices Hne) as [hi ->].
  destruct (load_chunk_first_shard self chunk_data lo (hi + 1) w Hw) as (w1 & -> & Hw1).
  replace (Py.len chunk_indices) with (Z.of_nat (length chunk_indices)) by done.
  rewrite range_windows by done.
  destruct (iter_batches_plan chunk_indices (seq 0 (ceil_div (length chunk_indices)
              (self_batch_size self)))) as (here & -> & Hhere).
  { unfold chunk_indices. by apply slice_Forall. }
  destruct (IH w1 Hw1) as (more & w2 & -> & Hw2 & Hmore).
  exists (here ++ more), w2. split; [done|]. split; [done|].
  apply Forall2_app; [|done]. exact Hhere.
Qed.

End plan.
End first_shard.

(** ** Shuffling permutes *)

Section shuffle.
Context `{RandomGen} {A : Type}.
Implicit Types x : list A.

Lemma swap_Permutation x i j : swap x i j ≡ₚ x.
Proof.
  unfold swap. destruct (x !! i) as [xi|] eqn:Ei; [|done].
  destruct (x !! j) as [xj|] eqn:Ej; [|done].
  by apply Permutation_insert_swap.
Qed.

Lemma shuffle_loop_Permutation i x st : (shuffle_loop i x st).1 ≡ₚ x.
Proof.
  revert x st. induction i as [|i IH]; intros x st; [done|].
  cbn [shuffle_loop]. destruct (rng_randbelow _ st) as [j st'].
  rewrite IH. apply swap_Permutation.
Qed.

Lemma rng_shuffle_Permutation x st : (rng_shuffle x st).1 ≡ₚ x.
Proof. apply shuffle_loop_Permutation. Qed.

End shuffle.

(** ** Iteration over a dataset whose rows are all in the first shard *)

Lemma take_length {A} (l : list A) idxs xs :
  Py.take_ l idxs = Ok xs → length xs = length idxs.
Proof.
  revert xs. induction idxs as [|i idxs IH]; intros xs; simpl; [by intros [= <-]|].
  destruct (Py.at_ l i); [|done]. simpl.
  destruct (Py.take_ l idxs) as [xs'|]; [|done]. simpl.
  intros [= <-]. simpl. by rewrite (IH xs').
Qed.

Lemma iloc_take_length series idxs col_data :
  iloc_take series idxs = Ok col_data → col_len col_data = length idxs.
Proof.
  unfold iloc_take, col_len. destruct series as [xs|xs|xs|xs|xs]; simpl;
    destruct (Py.take_ xs idxs) as [sel|] eqn:E; simpl; intros [= <-]; simpl;
    rewrite length_fmap; by eapply take_length.
Qed.

Lemma cut_from_rows chunk_data idxs b name v :
  cut_from chunk_data idxs b → (name, v) ∈ b → value_len v = length idxs.
Proof.
  intros [_ Hvals] Hin. destruct (Hvals _ _ Hin) as (series & col_data & _ & Et & _ & Hv).
  apply returned_as_value in Hv as ->. unfold value_len.
  rewrite value_cells_of, length_fmap. by eapply iloc_take_length.
Qed.

Lemma extract_batch_cut_from chunk_data idxs b :
  extract_batch chunk_data idxs [] = Ok b → cut_from chunk_data idxs b.
Proof.
  intros [Hkeys Hvals]%extract_batch_cut. split.
  - intros name series Hin. apply Hkeys. right.
    by apply (list_elem_of_fmap_2 fst _ (name, series)).
  - intros name v Hin. destruct (Hvals _ _ Hin) as [Hnil|?]; [|done].
    by apply elem_of_nil in Hnil.
Qed.

Lemma range1_length (n : nat) : length (Py.range1 (Z.of_nat n)) = n.
Proof. unfold Py.range1. by rewrite length_fmap, length_seq, Nat2Z.id. Qed.

Lemma range1_in_range (n : nat) : Forall (λ i, 0 ≤ i < Z.of_nat n) (Py.range1 (Z.of_nat n)).
Proof.
  unfold Py.range1. rewrite Nat2Z.id. apply Forall_fmap, Forall_forall.
  intros i Hi%elem_of_seq. simpl. lia.
Qed.

Section iteration.
Context `{RandomGen}.

Lemma iter_indices_Permutation self (n : nat) :
  iter_indices self (Z.of_nat n) ≡ₚ Py.range1 (Z.of_nat n).
Proof.
  unfold iter_indices. destruct (self_shuffle self); [|done].
  apply rng_shuffle_Permutation.
Qed.

Lemma iter_indices_in_range self (n : nat) :
  Forall (λ i, 0 ≤ i < Z.of_nat n) (iter_indices self (Z.of_nat n)).
Proof. rewrite iter_indices_Permutation. apply range1_in_range. Qed.

(** Iteration when every row is in the first shard: no exception, and
    one batch per entry of the plan. *)
Lemma iter_plan self chunk_data (n : nat) w :
  first_shard_holds self chunk_data w →
  self_length self = JInt (Z.of_nat n) →
  Forall (λ nc, (n ≤ col_len nc.2)%nat) chunk_data →
  0 < self_chunk_size self →
  0 < self_batch_size self →
  ∃ batches self' w',
    __iter__ self w = (batches, None, self', w')
    ∧ Forall2 (λ b idxs, extract_batch chunk_data idxs [] = Ok b) batches
        (batch_plan (iter_indices self (Z.of_nat n))
           (self_chunk_size self) (self_batch_size self)).
Proof.
  intros Hw Hlen Hrows Hcs Hbs.
  pose proof (iter_indices_Permutation self n) as Hperm.
  assert (length (iter_indices self (Z.of_nat n)) = n) as Hn.
  { by rewrite Hperm, range1_length. }
  pose proof (iter_indices_in_range self n) as Hin.
  unfold __iter__. rewrite Hlen. cbn [as_int].
  set (st := (rng_shuffle (Py.range1 (Z.of_nat n)) (self_rng self)).2).
  set (self1 := if self_shuffle self then set_rng self st else self).
  assert ((if self_shuffle self
           then let '(x, st) := rng_shuffle (Py.range1 (Z.of_nat n)) (self_rng self) in
                (x, set_rng self st)
           else (Py.range1 (Z.of_nat n), self))
          = (iter_indices self (Z.of_nat n), self1)) as ->.
  { unfold iter_indices, self1, st. destruct (self_shuffle self); [|done].
    by destruct (rng_shuffle _ _). }
  assert (self_chunk_size self1 = self_chunk_size self
          ∧ self_batch_size self1 = self_batch_size self
          ∧ first_shard_holds self1 chunk_data w) as (Ecs & Ebs & Hw1).
  { unfold self1. by destruct (self_shuffle self). }
  rewrite Ecs, range_windows by done.
  destruct (iter_chunks_plan self1 chunk_data n) with
    (indices := iter_indices self (Z.of_nat n))
    (ks := seq 0 (ceil_div n (self_chunk_size self))) (w := w)
    as (batches & w' & Eiter & _ & Hall); try done; try lia.
  { apply Forall_forall. intros k Hk%elem_of_seq. unfold Py.len.
    rewrite Hn, Ecs. apply ceil_div_bounds; [done|lia]. }
  unfold Py.len in Eiter. rewrite Hn, Ecs in Eiter. rewrite Eiter.
  exists batches, self1, w'. split; [done|].
  rewrite Ecs, Ebs in Hall. unfold Py.len in Hall. rewrite Hn in Hall.
  unfold batch_plan.
  replace (windows (iter_indices self (Z.of_nat n)) (self_chunk_size self))
    with ((λ k : nat, Py.slice (iter_indices self (Z.of_nat n))
                        (Z.of_nat k * self_chunk_size self)
                        (Z.min (Z.of_nat k * self_chunk_size self + self_chunk_size self)
                           (Z.of_nat n)))
          <$> seq 0 (ceil_div n (self_chunk_size self))); [done|].
  unfold windows, Py.len. by rewrite Hn.
Qed.

(** C2, as the code has it.  When every row is in the first shard,
    iteration ends without an exception after finitely many batches.  It
    walks the permutation in windows of [chunk_size] entries and cuts each
    window into batches of [batch_size] entries, so a batch never spans
    two windows: within a window every batch but the last has
    [batch_size] rows, and the last batch of each window may be shorter. *)
Theorem iter_cuts_each_window self chunk_data (n : nat) w :
  first_shard_holds self chunk_data w →
  self_length self = JInt (Z.of_nat n) →
  Forall (λ nc, (n ≤ col_len nc.2)%nat) chunk_data →
  0 < self_chunk_size self →
  0 < self_batch_size self →
  let plan := batch_plan (iter_indices self (Z.of_nat n))
                (self_chunk_size self) (self_batch_size self) in
  ∃ batches self' w',
    __iter__ self w = (batches, None, self', w')
    ∧ Forall2 (λ b idxs, cut_from chunk_data idxs b
                 ∧ ∀ name v, (name, v) ∈ b → value_len v = length idxs) batches plan
    ∧ length <$> plan = batch_sizes n (self_chunk_size self) (self_batch_size self)
    ∧ concat plan = iter_indices self (Z.of_nat n)
    ∧ iter_indices self (Z.of_nat n) ≡ₚ Py.range1 (Z.of_nat n).
Proof.
  intros Hw Hlen Hrows Hcs Hbs plan.
  destruct (iter_plan self chunk_data n w Hw Hlen Hrows Hcs Hbs)
    as (batches & self' & w' & E & Hall).
  exists batches, self', w'. split; [done|]. split; [|split; [|split]].
  - eapply Forall2_impl; [exact Hall|]. intros b idxs Hb. simpl in Hb.
    apply extract_batch_cut_from in Hb. split; [done|].
    intros name v Hv. by eapply cut_from_rows.
  - unfold plan. rewrite batch_plan_sizes by done.
    by rewrite (iter_indices_Permutation self n), range1_length.
  - by apply batch_plan_concat.
  - apply iter_indices_Permutation.
Qed.

End iteration.

Lemma ten_single_opened : open_ten "none" 1000 3 false 4 = Ok ten_single.
Proof. reflexivity. Qed.

Lemma iter_cuts_each_window_witness :
  first_shard_holds ten_single ten (disk_ten "none" 1000)
  ∧ self_length ten_single = JInt (Z.of_nat 10)
  ∧ Forall (λ nc, (10 ≤ col_len nc.2)%nat) ten
  ∧ 0 < self_chunk_size ten_single
  ∧ 0 < self_batch_size ten_single
  ∧ ∃ batches self' w',
      __iter__ ten_single (disk_ten "none" 1000) = (batches, None, self', w')
      ∧ length batches = 5%nat.
Proof.
  assert (first_shard_holds ten_single ten (disk_ten "none" 1000)) as H1.
  { split; [reflexivity|]. exists "out/shard.00000.parquet". split; reflexivity. }
  assert (self_length ten_single = JInt (Z.of_nat 10)) as H2 by reflexivity.
  assert (Forall (λ nc, (10 ≤ col_len nc.2)%nat) ten) as H3.
  { repeat constructor. }
  assert (0 < self_chunk_size ten_single) as H4 by reflexivity.
  assert (0 < self_batch_size ten_single) as H5 by reflexivity.
  do 5 (split; [assumption|]).
  destruct (iter_cuts_each_window ten_single ten 10 _ H1 H2 H3 H4 H5)
    as (batches & self' & w' & E & Hall & Hsizes & _).
  exists batches, self', w'. split; [exact E|].
  apply Forall2_length in Hall. rewrite Hall.
  apply (f_equal length) in Hsizes. rewrite length_fmap in Hsizes.
  rewrite Hsizes. reflexivity.
Defined.

(** C2 as stated fails: ten samples read with [chunk_size = 4] and
    [batch_size = 3] come in batches of 3, 1, 3, 1 and 2 rows, not 3, 3, 3
    and 1; the second batch is short without being the final one. *)
Lemma batches_stop_at_chunk_windows :
  let sizes := batch_rows <$> (__iter__ ten_single (disk_ten "none" 1000)).1.1.1 in
  sizes = [3; 1; 3; 1; 2]%nat
  ∧ sizes ≠ [3; 3; 3; 1]%nat
  ∧ ¬ all_but_last_full 3 sizes.
Proof.
  assert (batch_rows <$> (__iter__ ten_single (disk_ten "none" 1000)).1.1.1
          = [3; 1; 3; 1; 2]%nat) as E by (vm_compute; reflexivity).
  cbv zeta. rewrite E. repeat split; [done|].
  intros Hfull. specialize (Hfull 1%nat 1%nat eq_refl). cbn in Hfull. lia.
Qed.

(** ** Round trip *)

Lemma batch_rows_value_len name v b : batch_rows ((name, v) :: b) = value_len v.
Proof. unfold value_len, col_len. destruct v; simpl; by rewrite length_fmap. Qed.

Lemma batch_records_extract df idxs b :
  df_wf df →
  Forall (λ i, 0 ≤ i < Z.of_nat (df_len df)) idxs →
  extract_batch df idxs [] = Ok b →
  batch_records b = (λ i, returned_row (row_at df (Z.to_nat i))) <$> idxs.
Proof.
  intros [Hnd Hlens] Hin Hb.
  destruct (extract_batch_distinct df idxs [] (df_len df)) as (selected & E & Hsel);
    [done|done|..].
  { eapply Forall_impl; [exact Hlens|]. intros ? ->. done. }
  rewrite Hb in E. injection E as ->. simpl.
  assert (batch_rows selected = length idxs) as Hrows.
  { destruct Hsel as [|[name c] [name' v] df' sel' [_ Hcells] _].
    - simpl in *. destruct idxs as [|i idxs]; [done|].
      apply Forall_inv in Hin. lia.
    - rewrite batch_rows_value_len. unfold value_len.
      symmetry. by eapply Forall2_length. }
  unfold batch_records. rewrite Hrows.
  apply list_eq. intros j. rewrite !list_lookup_fmap.
  destruct (idxs !! j) as [i|] eqn:Ei.
  - rewrite lookup_seq_lt by (by eapply lookup_lt_Some). simpl. f_equal.
    unfold batch_record_at, returned_row, row_at. rewrite <- list_fmap_compose.
    clear Hrows Hb Hnd Hlens Hin.
    induction Hsel as [|[name c] [name' v] df' sel' [Hname Hcells] _ IH]; [done|].
    rewrite !fmap_cons. simpl in *. subst name'. f_equal; [|exact IH].
    f_equal. destruct (Forall2_lookup_l _ _ _ _ _ Hcells Ei) as (x & -> & Hx).
    by rewrite Hx.
  - rewrite lookup_seq_ge by (by apply lookup_ge_None). done.
Qed.

Lemma write_shard_dirs df output_dir compression chunk_size i w :
  dirs (write_shard df output_dir compression chunk_size i w).2 = dirs w.
Proof.
  unfold write_shard. destruct (decide (compression = "zstd")); [|done].
  by destruct (read_file _ _).
Qed.

Lemma write_shards_dirs df output_dir compression chunk_size starts shards w :
  dirs (write_shards df output_dir compression chunk_size starts shards w).2 = dirs w.
Proof.
  revert shards w. induction starts as [|i rest IH]; intros shards w; [done|].
  cbn [write_shards].
  pose proof (write_shard_dirs df output_dir compression chunk_size i w) as Hd.
  destruct (write_shard df output_dir compression chunk_size i w) as [[name|e] w1];
    simpl in Hd; [|done].
  by rewrite IH.
Qed.

Lemma convert_makes_directory input_path output_dir compression chunk_size w :
  files w !! output_dir = None →
  isdir output_dir
    (convert_to_streaming_format input_path output_dir compression chunk_size w).2 = true.
Proof.
  intros Hout. unfold convert_to_streaming_format, makedirs, isdir. rewrite Hout.
  apply bool_decide_eq_true.
  assert (output_dir ∈ ({[output_dir]} ∪ dirs w : gset string)) as Hmade.
  { apply elem_of_union. left. by apply elem_of_singleton. }
  destruct (load_input input_path _); [|done].
  destruct (Py.range 0 _ chunk_size) as [starts|]; [|done].
  match goal with
  | |- context [write_shards ?a ?b ?c ?d ?e ?f ?g] =>
      pose proof (write_shards_dirs a b c d e f g) as Hd;
      destruct (write_shards a b c d e f g) as [[shards|e'] w1]
  end; simpl in *; by rewrite Hd.
Qed.

Section reader.
Context `{RandomGen}.

(** Opening a directory whose manifest parses to an object. *)
Lemma init_directory data_path batch_size shuffle seed chunk_size fresh w fields :
  isdir data_path w = true →
  json_load (Py.path_join data_path "index.json") w = Ok (JObj fields) →
  __init__ data_path batch_size shuffle seed chunk_size fresh w
  = Ok (mkDataset data_path batch_size shuffle (default fresh seed) chunk_size
          custom_streaming
          (default (JInt 0) (Py.dict_get fields "samples"))
          (default (JObj []) (Py.dict_get fields "columns"))
          (default (JArr []) (Py.dict_get fields "shards"))
          (rng_seed (default fresh seed))).
Proof.
  intros Hdir Hload. unfold __init__. rewrite Hdir.
  assert (exists_ (Py.path_join data_path "index.json") w = true) as ->.
  { unfold exists_. unfold json_load, read_file in Hload.
    destruct (files w !! Py.path_join data_path "index.json") eqn:E.
    - by rewrite bool_decide_true by done.
    - by case_decide. }
  unfold _load_index. by rewrite Hload.
Qed.

End reader.

Lemma iloc_slice_all df hi :
  Forall (λ nc, Z.of_nat (col_len nc.2) ≤ hi) df → iloc_slice df 0 hi = df.
Proof.
  intros Hall. unfold iloc_slice.
  rewrite <- (list_fmap_id df) at 2. apply list_fmap_ext.
  intros i [name c] Hin. simpl. f_equal.
  eapply Forall_lookup_1 in Hall; [|done]. simpl in Hall. unfold col_len in Hall.
  destruct c; simpl in *; rewrite length_fmap in Hall; by rewrite slice_all.
Qed.

Lemma nth_shard_path_zstd output_dir compression k :
  Py.endswith (Py.path_join output_dir (nth_shard_name compression k)) ".zstd"
  = bool_decide (compression = "zstd").
Proof.
  unfold nth_shard_name. rewrite path_join_relative by done.
  destruct (decide (compression = "zstd")) as [->|Hne].
  - rewrite bool_decide_true by done. simpl.
    rewrite <- !app_assoc_s. apply endswith_app.
  - rewrite bool_decide_false by done. rewrite app_nil_r_s.
    rewrite <- !app_assoc_s. apply endswith_parquet_zstd.
Qed.

Lemma ceil_div_one (n : nat) size :
  (0 < n)%nat → Z.of_nat n ≤ size → ceil_div n size = 1%nat.
Proof.
  intros Hn Hle.
  assert (0 < size) as Hsize by lia.
  pose proof (ceil_div_bounds n size 0 Hsize) as H0.
  pose proof (ceil_div_bounds n size 1 Hsize) as H1.
  destruct (ceil_div n size) as [|[|k]]; [|done|]; lia.
Qed.

Lemma ceil_div_zero size : 0 < size → ceil_div 0 size = 0%nat.
Proof.
  intros Hsize. pose proof (ceil_div_bounds 0 size 0 Hsize) as H0.
  destruct (ceil_div 0 size); [done|lia].
Qed.

Lemma concat_fmap_each {A B} (f : A → B) (ls : list (list A)) :
  concat ((λ l : list A, f <$> l) <$> ls) = f <$> concat ls.
Proof.
  induction ls as [|l ls IH]; [done|].
  rewrite fmap_cons. cbn [concat]. by rewrite fmap_app, IH.
Qed.

Section round_trip.
Context `{RandomGen}.

(** Opening a directory that [convert_to_streaming_format] wrote. *)
Lemma init_converted data_path batch_size shuffle seed chunk_size fresh w n columns shards :
  isdir data_path w = true →
  json_load (Py.path_join data_path "index.json") w = Ok (make_index n columns shards) →
  __init__ data_path batch_size shuffle seed chunk_size fresh w
  = Ok (mkDataset data_path batch_size shuffle (default fresh seed) chunk_size
          custom_streaming (JInt (Z.of_nat n)) (JObj (prod_map id JStr <$> columns))
          (JArr (JStr <$> shards)) (rng_seed (default fresh seed))).
Proof.
  intros Hdir Hload. rewrite (init_directory _ _ _ _ _ _ _ _ Hdir Hload).
  reflexivity.
Qed.

(** C3, as the code has it.  A table whose rows fit in one shard is
    converted, opened with shuffling off and iterated without an
    exception; the records of the batches, concatenated, are the table's
    rows in their order, each row once, with [int64], [float64] and [bool]
    cells as float32 numbers and every other cell (datetimes included) as
    stored. *)
Theorem round_trip_single_shard df input_path output_dir compression shard_rows
    batch_size seed chunk_size fresh w :
  df_wf df →
  load_input input_path w = Ok df →
  files w !! output_dir = None →
  0 < shard_rows →
  Z.of_nat (df_len df) ≤ shard_rows →
  0 < batch_size →
  0 < chunk_size →
  ∃ w1 ds batches ds' w2,
    convert_to_streaming_format input_path output_dir compression shard_rows w = (Ok (), w1)
    ∧ __init__ output_dir batch_size false seed chunk_size fresh w1 = Ok ds
    ∧ __iter__ ds w1 = (batches, None, ds', w2)
    ∧ concat (batch_records <$> batches) = returned_row <$> rows df.
Proof.
  intros Hwf Hin Hout Hsr Hfit Hbs Hcs.
  destruct (convert_to_streaming_format_spec df input_path output_dir compression shard_rows w
              Hsr Hin Hout) as (w1 & Econv & Hindex & _ & _ & Hfiles & _).
  pose proof (convert_makes_directory input_path output_dir compression shard_rows w Hout)
    as Hdir. rewrite Econv in Hdir. simpl in Hdir.
  pose proof (init_converted output_dir batch_size false seed chunk_size fresh w1 _ _ _
                Hdir Hindex) as Einit.
  set (n := df_len df) in *.
  match type of Einit with _ = Ok ?d => set (ds := d) in * end.
  exists w1, ds. destruct (decide (n = 0%nat)) as [Hn0|Hn0].
  - (* the empty table: no shard, no batch *)
    exists [], ds, w1. repeat (split; [done|]). split.
    + unfold __iter__. simpl. rewrite Hn0. simpl.
      change 0 with (Z.of_nat 0). rewrite range_windows, ceil_div_zero by done. done.
    + unfold rows. fold n. by rewrite Hn0.
  - assert (ceil_div n shard_rows = 1%nat) as Hone by (apply ceil_div_one; lia).
    assert (first_shard_holds ds df w1) as Hshard.
    { split; [done|]. exists (Py.path_join output_dir (nth_shard_name compression 0)).
      split.
      - simpl. by rewrite Hone.
      - rewrite Hfiles by lia. f_equal. unfold shard_blob, encode.
        rewrite nth_shard_path_zstd. simpl.
        rewrite iloc_slice_all.
        + destruct (decide (compression = "zstd")).
          * by rewrite bool_decide_true.
          * by rewrite bool_decide_false.
        + destruct Hwf as [_ Hlens]. eapply Forall_impl; [exact Hlens|].
          intros nc ->. done. }
    destruct (iter_plan ds df n w1 Hshard) as (batches & ds' & w2 & Eiter & Hall);
      [done| |done|done|].
    { destruct Hwf as [_ Hlens]. eapply Forall_impl; [exact Hlens|].
      intros nc ->. done. }
    exists batches, ds', w2. repeat (split; [done|]).
    change (iter_indices ds (Z.of_nat n)) with (Py.range1 (Z.of_nat n)) in Hall.
    set (F := λ i : Z, returned_row (row_at df (Z.to_nat i))).
    assert (batch_records <$> batches
            = (λ idxs : list Z, F <$> idxs) <$> batch_plan (Py.range1 (Z.of_nat n))
                                                  chunk_size batch_size) as ->.
    { assert (Forall (Forall (λ i, 0 ≤ i < Z.of_nat n))
                (batch_plan (Py.range1 (Z.of_nat n)) chunk_size batch_size)) as Hrange.
      { apply Forall_concat. rewrite batch_plan_concat by done. apply range1_in_range. }
      simpl in Hall. revert Hrange Hall.
      generalize (batch_plan (Py.range1 (Z.of_nat n)) chunk_size batch_size).
      intros plan Hrange Hall. clear Eiter.
      induction Hall as [|b idxs bs plan Hb _ IH]; [done|].
      apply Forall_cons in Hrange as [Hidxs Hrange].
      rewrite !fmap_cons, IH by done.
      by rewrite (batch_records_extract df idxs b). }
    rewrite concat_fmap_each, batch_plan_concat by done.
    unfold rows, Py.range1. fold n. rewrite Nat2Z.id, <- !list_fmap_compose.
    apply list_fmap_ext. intros ? i _. unfold F. simpl. by rewrite Nat2Z.id.
Qed.

End round_trip.

Lemma round_trip_single_shard_witness :
  df_wf ten
  ∧ load_input "in.parquet" disk0 = Ok ten
  ∧ files disk0 !! "out" = None
  ∧ 0 < 1000 ∧ Z.of_nat (df_len ten) ≤ 1000 ∧ 0 < 3 ∧ 0 < 4
  ∧ ∃ w1 ds batches ds' w2,
      convert_to_streaming_format "in.parquet" "out" "zstd" 1000 disk0 = (Ok (), w1)
      ∧ __init__ "out" 3 false (Some 0) 4 0 w1 = Ok ds
      ∧ __iter__ ds w1 = (batches, None, ds', w2)
      ∧ concat (batch_records <$> batches) = returned_row <$> rows ten.
Proof.
  assert (df_wf ten) as H1.
  { split; [apply (bool_decide_unpack _); vm_compute; exact I|repeat constructor]. }
  assert (load_input "in.parquet" disk0 = Ok ten) as H2 by reflexivity.
  assert (files disk0 !! "out" = None) as H3 by reflexivity.
  assert (0 < 1000) as H4 by reflexivity.
  assert (Z.of_nat (df_len ten) ≤ 1000) as H5 by (vm_compute; discriminate).
  assert (0 < 3) as H6 by reflexivity.
  assert (0 < 4) as H7 by reflexivity.
  do 7 (split; [assumption|]).
  exact (round_trip_single_shard ten "in.parquet" "out" "zstd" 1000 3 (Some 0) 4 0 disk0
           H1 H2 H3 H4 H5 H6 H7).
Defined.

(** C3 as stated fails: the integer 16777217 of a one-row table comes
    back as the float32 number 16777216 (significand [2^23], exponent
    [1]), the same number that 16777216 comes back as. *)
Lemma round_trip_rounds_integers :
  (let w1 := (convert_to_streaming_format "big.parquet" "out" "zstd" 1000 disk_big).2 in
   ds ← __init__ "out" 32 false (Some 0) 1000 0 w1;
   Ok (batch_records <$> (__iter__ ds w1).1.1.1))
  = Ok [[[("id", Some (F32 (S754_finite false 8388608 1)))]]]
  ∧ cell_of (SInt 16777217) = cell_of (SInt 16777216)
  ∧ SInt 16777217 ≠ SInt 16777216.
Proof. split; [by vm_compute|]. split; [by vm_compute|]. discriminate. Qed.

(** ** Runs of freshly constructed instances *)

Lemma agree_refl w : agree_off_temps w w.
Proof. by split. Qed.

Lemma agree_trans w1 w2 w3 :
  agree_off_temps w1 w2 → agree_off_temps w2 w3 → agree_off_temps w1 w3.
Proof.
  intros [Hd1 Hf1] [Hd2 Hf2]. split; [congruence|].
  intros p Hp. by rewrite Hf1, Hf2.
Qed.

Lemma agree_sym w1 w2 : agree_off_temps w1 w2 → agree_off_temps w2 w1.
Proof. intros [Hd Hf]. split; [done|]. intros p Hp. by rewrite Hf. Qed.

Lemma zstd_not_parquet p :
  Py.endswith p ".zstd" = true → Py.endswith p ".parquet" = false.
Proof.
  unfold Py.endswith. destruct (String.rev p) as [|c s]; [done|].
  change (String.rev ".zstd") with (String "d"%char "tsz.").
  change (String.rev ".parquet") with (String "t"%char "euqrap.").
  cbn [String.prefix].
  destruct (ascii_dec "d"%char c) as [<-|]; [|done]. intros _.
  by destruct (ascii_dec "t"%char "d"%char).
Qed.

Lemma temp_name_parquet k : Py.endswith (temp_name k) ".parquet" = true.
Proof. unfold temp_name. rewrite <- app_assoc_s. apply endswith_app. Qed.

Lemma index_path_not_parquet data_path :
  Py.endswith (Py.path_join data_path "index.json") ".parquet" = false.
Proof.
  rewrite path_join_relative by done. unfold Py.endswith.
  by rewrite rev_app_distr_s.
Qed.

Lemma read_file_agree p w w' :
  agree_off_temps w w' → Py.endswith p ".parquet" = false →
  read_file p w = read_file p w'.
Proof. intros [Hd Hf] Hp. unfold read_file. by rewrite Hd, (Hf p Hp). Qed.

Lemma write_temp_agree b w :
  agree_off_temps w (write_temp b w).2
  ∧ read_parquet (write_temp b w).1 (write_temp b w).2
    = match b with Parquet df => Ok df | _ => Raise ArrowInvalid end.
Proof.
  unfold write_temp, read_parquet, read_file. simpl. split.
  - split; [done|]. intros p Hp. simpl. rewrite lookup_insert_ne; [done|].
    intros <-. by rewrite temp_name_parquet in Hp.
  - by rewrite lookup_insert_eq.
Qed.

Lemma remove_temp_agree k w : agree_off_temps w (remove (temp_name k) w).
Proof.
  split; [done|]. intros p Hp. simpl. rewrite lookup_delete_ne; [done|].
  intros <-. by rewrite temp_name_parquet in Hp.
Qed.

Section fresh.
Context `{RandomGen}.

Lemma load_chunk_leaves_world self start_idx end_idx w :
  reads_compressed self = false → (_load_chunk self start_idx end_idx w).2 = w.
Proof.
  unfold reads_compressed, _load_chunk. destruct (self_format self); [done|done|].
  destruct (first_shard_path _ _) as [shard_path|]; [|done]. by intros ->.
Qed.

Lemma load_chunk_agree self start_idx end_idx w w' :
  reads_compressed self = true →
  agree_off_temps w w' →
  (_load_chunk self start_idx end_idx w).1 = (_load_chunk self start_idx end_idx w').1
  ∧ agree_off_temps (_load_chunk self start_idx end_idx w).2
      (_load_chunk self start_idx end_idx w').2.
Proof.
  unfold reads_compressed, _load_chunk. destruct (self_format self); [done|done|].
  destruct (first_shard_path _ _) as [shard_path|]; [|done]. intros Hz Hagree.
  rewrite Hz. rewrite <- (read_file_agree shard_path w w' Hagree (zstd_not_parquet _ Hz)).
  destruct (read_file shard_path w ≫= zstd_decompress) as [data|]; [|done].
  destruct (write_temp_agree data w) as [Ha Hr].
  destruct (write_temp_agree data w') as [Ha' Hr'].
  destruct (write_temp data w) as [temp_path w1] eqn:E1.
  destruct (write_temp data w') as [temp_path' w1'] eqn:E1'.
  simpl in *. rewrite Hr, Hr'.
  assert (agree_off_temps w1 w1') as Hw1.
  { eapply agree_trans; [apply agree_sym, Ha|].
    eapply agree_trans; [exact Hagree|exact Ha']. }
  destruct data; simpl; try done.
  split; [done|].
  unfold write_temp in E1, E1'. injection E1 as <- <-. injection E1' as <- <-.
  eapply agree_trans; [apply agree_sym, remove_temp_agree|].
  eapply agree_trans; [exact Hw1|]. apply remove_temp_agree.
Qed.

Lemma load_chunk_frame self start_idx end_idx w :
  agree_off_temps w (_load_chunk self start_idx end_idx w).2.
Proof.
  unfold _load_chunk. destruct (self_format self); [apply agree_refl..|].
  destruct (first_shard_path _ _) as [shard_path|]; [|apply agree_refl].
  destruct (Py.endswith shard_path ".zstd"); [|apply agree_refl].
  destruct (read_file shard_path w ≫= zstd_decompress) as [data|]; [|apply agree_refl].
  destruct (write_temp_agree data w) as [Ha _].
  destruct (write_temp data w) as [temp_path w1] eqn:E1. simpl in Ha.
  destruct (read_parquet temp_path w1); simpl; [|done].
  unfold write_temp in E1. injection E1 as <- <-.
  eapply agree_trans; [exact Ha|]. apply remove_temp_agree.
Qed.

Lemma iter_chunks_frame self length indices starts w :
  agree_off_temps w (iter_chunks self length indices starts w).2.
Proof.
  revert w. induction starts as [|chunk_start rest IH]; intros w; [apply agree_refl|].
  cbn [iter_chunks]. set (chunk_indices := Py.slice indices chunk_start _).
  destruct (Py.min_ chunk_indices) as [lo|]; destruct (Py.max_ chunk_indices) as [hi|];
    try apply agree_refl.
  pose proof (load_chunk_frame self lo (hi + 1) w) as Hw.
  destruct (_load_chunk self lo (hi + 1) w) as [[chunk_data|] w1]; simpl in Hw; [|done].
  destruct (Py.range 0 _ _) as [batch_starts|]; [|done].
  destruct (iter_batches _ _ _ _) as [here [e|]]; [done|].
  specialize (IH w1). destruct (iter_chunks self length indices rest w1) as [[more e] w2].
  simpl in *. by eapply agree_trans.
Qed.

Lemma iter_frame self w : agree_off_temps w (__iter__ self w).2.
Proof.
  unfold __iter__. destruct (as_int _) as [length|]; [|apply agree_refl].
  set (shuffled := if self_shuffle self then _ else _).
  destruct shuffled as [indices self1].
  destruct (Py.range 0 length _) as [starts|]; [|apply agree_refl].
  pose proof (iter_chunks_frame self1 length indices starts w) as Hw.
  by destruct (iter_chunks self1 length indices starts w) as [[batches e] w1].
Qed.

Lemma iter_chunks_leaves_world self length indices starts w :
  reads_compressed self = false → (iter_chunks self length indices starts w).2 = w.
Proof.
  intros Hr. revert w. induction starts as [|chunk_start rest IH]; intros w; [done|].
  cbn [iter_chunks]. set (chunk_indices := Py.slice indices chunk_start _).
  destruct (Py.min_ chunk_indices) as [lo|]; destruct (Py.max_ chunk_indices) as [hi|];
    try done.
  pose proof (load_chunk_leaves_world self lo (hi + 1) w Hr) as Hw.
  destruct (_load_chunk self lo (hi + 1) w) as [[chunk_data|] w1]; simpl in Hw; subst w1;
    [|done].
  destruct (Py.range 0 _ _) as [batch_starts|]; [|done].
  destruct (iter_batches _ _ _ _) as [here [e|]]; [done|].
  specialize (IH w). by destruct (iter_chunks self length indices rest w) as [[more e] w2].
Qed.

Lemma iter_chunks_agree self length indices starts w w' :
  reads_compressed self = true →
  agree_off_temps w w' →
  (iter_chunks self length indices starts w).1 = (iter_chunks self length indices starts w').1
  ∧ agree_off_temps (iter_chunks self length indices starts w).2
      (iter_chunks self length indices starts w').2.
Proof.
  intros Hr. revert w w'. induction starts as [|chunk_start rest IH]; intros w w' Hagree;
    [done|].
  cbn [iter_chunks]. set (chunk_indices := Py.slice indices chunk_start _).
  destruct (Py.min_ chunk_indices) as [lo|]; destruct (Py.max_ chunk_indices) as [hi|];
    try done.
  destruct (load_chunk_agree self lo (hi + 1) w w' Hr Hagree) as [Eload Hagree1].
  destruct (_load_chunk self lo (hi + 1) w) as [r w1].
  destruct (_load_chunk self lo (hi + 1) w') as [r' w1'].
  simpl in Eload, Hagree1. subst r'. destruct r as [chunk_data|]; [|done].
  destruct (Py.range 0 _ _) as [batch_starts|]; [|done].
  destruct (iter_batches _ _ _ _) as [here [e|]]; [done|].
  destruct (IH w1 w1' Hagree1) as [Erest Hagree2].
  destruct (iter_chunks self length indices rest w1) as [[more e] w2].
  destruct (iter_chunks self length indices rest w1') as [[more' e'] w2'].
  simpl in *. by injection Erest as <- <-.
Qed.

Lemma iter_leaves_world self w :
  reads_compressed self = false → (__iter__ self w).2 = w.
Proof.
  intros Hr. unfold __iter__. destruct (as_int _) as [length|]; [|done].
  set (shuffled := if self_shuffle self then _ else _).
  assert (reads_compressed shuffled.2 = false) as Hr'.
  { unfold shuffled. destruct (self_shuffle self); [|done].
    by destruct (rng_shuffle _ _). }
  destruct shuffled as [indices self1]. simpl in Hr'.
  destruct (Py.range 0 length _) as [starts|]; [|done].
  pose proof (iter_chunks_leaves_world self1 length indices starts w Hr') as Hw.
  by destruct (iter_chunks self1 length indices starts w) as [[batches e] w1].
Qed.

Lemma iter_agree self w w' :
  reads_compressed self = true →
  agree_off_temps w w' →
  (__iter__ self w).1 = (__iter__ self w').1
  ∧ agree_off_temps (__iter__ self w).2 (__iter__ self w').2.
Proof.
  intros Hr Hagree. unfold __iter__. destruct (as_int _) as [length|]; [|done].
  set (shuffled := if self_shuffle self then _ else _).
  assert (reads_compressed shuffled.2 = true) as Hr'.
  { unfold shuffled. destruct (self_shuffle self); [|done].
    by destruct (rng_shuffle _ _). }
  destruct shuffled as [indices self1]. simpl in Hr'.
  destruct (Py.range 0 length _) as [starts|]; [|done].
  destruct (iter_chunks_agree self1 length indices starts w w' Hr' Hagree) as [E Ha].
  destruct (iter_chunks self1 length indices starts w) as [[batches e] w1].
  destruct (iter_chunks self1 length indices starts w') as [[batches' e'] w1'].
  simpl in *. by injection E as <- <-.
Qed.

Lemma init_agree data_path batch_size shuffle seed chunk_size fresh fresh' w w' :
  agree_off_temps w w' →
  isdir data_path w = true →
  __init__ data_path batch_size shuffle (Some seed) chunk_size fresh w
  = __init__ data_path batch_size shuffle (Some seed) chunk_size fresh' w'.
Proof.
  intros Hagree Hdir. pose proof Hagree as [Hd Hf]. unfold __init__.
  assert (isdir data_path w' = true) as -> by (unfold isdir in *; by rewrite <- Hd).
  rewrite Hdir.
  assert (exists_ (Py.path_join data_path "index.json") w
          = exists_ (Py.path_join data_path "index.json") w') as ->.
  { unfold exists_, isdir. by rewrite Hd, (Hf _ (index_path_not_parquet data_path)). }
  unfold _load_index, json_load.
  by rewrite (read_file_agree _ w w' Hagree (index_path_not_parquet data_path)).
Qed.

Lemma init_format_directory data_path batch_size shuffle seed chunk_size fresh w ds :
  __init__ data_path batch_size shuffle seed chunk_size fresh w = Ok ds →
  self_format ds = custom_streaming →
  isdir data_path w = true.
Proof.
  unfold __init__. destruct (isdir data_path w); [done|].
  destruct (Py.endswith data_path ".csv").
  { destruct (_get_csv_length _ _); simpl; [|done]. by intros [= <-]. }
  destruct (Py.endswith data_path ".parquet"); [|done].
  destruct (_get_parquet_length _ _); simpl; [|done]. by intros [= <-].
Qed.

(** C4, as the code has it.  A dataset constructed with a given seed and
    iterated, and a second dataset constructed afterwards with the same
    arguments and the same seed and iterated in turn, yield the same
    batches in the same order and end the same way (the permutation is a
    function of the seed alone). *)
Theorem fresh_instances_same_seed_agree data_path batch_size shuffle seed chunk_size
    fresh1 fresh2 w ds :
  __init__ data_path batch_size shuffle (Some seed) chunk_size fresh1 w = Ok ds →
  let first := __iter__ ds w in
  __init__ data_path batch_size shuffle (Some seed) chunk_size fresh2 first.2 = Ok ds
  ∧ (__iter__ ds first.2).1.1 = first.1.1.
Proof.
  intros Hinit first. destruct (reads_compressed ds) eqn:Hr.
  - assert (self_format ds = custom_streaming) as Hfmt.
    { unfold reads_compressed in Hr. by destruct (self_format ds). }
    pose proof (init_format_directory _ _ _ _ _ _ _ _ Hinit Hfmt) as Hdir.
    pose proof (iter_frame ds w) as Hagree. fold first in Hagree.
    split.
    + by rewrite <- (init_agree _ _ _ _ _ fresh1 fresh2 w first.2 Hagree Hdir).
    + destruct (iter_agree ds w first.2 Hr Hagree) as [E _]. fold first in E.
      by rewrite <- E.
  - unfold first. rewrite iter_leaves_world by done. split; [|done].
    by rewrite <- Hinit.
Qed.

End fresh.

Lemma fresh_instances_same_seed_agree_witness :
  __init__ "out" 3 true (Some 0) 4 11 (disk_ten "zstd" 1000) = Ok ten_shuffled
  ∧ let first := __iter__ ten_shuffled (disk_ten "zstd" 1000) in
    __init__ "out" 3 true (Some 0) 4 22 first.2 = Ok ten_shuffled
    ∧ (__iter__ ten_shuffled first.2).1.1 = first.1.1.
Proof.
  assert (__init__ "out" 3 true (Some 0) 4 11 (disk_ten "zstd" 1000) = Ok ten_shuffled)
    as H1 by reflexivity.
  split; [exact H1|].
  exact (fresh_instances_same_seed_agree "out" 3 true 0 4 11 22 _ _ H1).
Defined.

(** C4 as stated fails on one instance: the generator is seeded once, at
    construction, and every iteration draws from it, so the second
    iteration of the same dataset walks another permutation than the
    first. *)
Lemma second_iteration_reshuffles :
  let first := __iter__ ten_shuffled (disk_ten "zstd" 1000) in
  let second := __iter__ first.1.2 first.2 in
  first.1.1.2 = None ∧ second.1.1.2 = None ∧ first.1.1.1 ≠ second.1.1.1.
Proof.
  split; [by vm_compute|]. split; [by vm_compute|].
  intros E. apply (f_equal (fmap (λ b : Batch, Py.dict_get b "id"))) in E.
  vm_compute in E. discriminate.
Qed.

(** ** Every batch, column by column *)

Lemma iter_batches_prefix chunk_data chunk_indices batch_size ks batches e :
  iter_batches chunk_data chunk_indices batch_size
    ((λ k : nat, Z.of_nat k * batch_size) <$> ks) = (batches, e) →
  let cuts := (λ k : nat, Py.slice chunk_indices (Z.of_nat k * batch_size)
                 (Z.min (Z.of_nat k * batch_size + batch_size) (Py.len chunk_indices)))
              <$> ks in
  Forall2 (λ idxs b, extract_batch chunk_data idxs [] = Ok b)
    (take (length batches) cuts) batches
  ∧ (e = None → length batches = length cuts).
Proof.
  revert batches e. induction ks as [|k ks IH]; intros batches e.
  { intros [= <- <-]. by split. }
  rewrite !fmap_cons. cbn [iter_batches].
  destruct (extract_batch chunk_data _ []) as [b|] eqn:Eb.
  - destruct (iter_batches chunk_data chunk_indices batch_size _) as [more e'] eqn:Er.
    intros [= <- <-]. destruct (IH _ _ eq_refl) as [Hall Hlen]. split.
    + simpl. by constructor.
    + intros He. simpl. by rewrite Hlen.
  - intros [= <- <-]. by split.
Qed.

Section every_batch.
Context `{RandomGen}.

Lemma reached_from_load self lo hi w w' :
  reached_from self w w' →
  (_load_chunk self lo hi w').1 = (_load_chunk self lo hi w).1
  ∧ reached_from self w (_load_chunk self lo hi w').2.
Proof.
  unfold reached_from. destruct (reads_compressed self) eqn:Hr.
  - intros Hagree. destruct (load_chunk_agree self lo hi w w' Hr Hagree) as [E _].
    split; [done|]. eapply agree_trans; [exact Hagree|]. apply load_chunk_frame.
  - intros ->. split; [done|]. by apply load_chunk_leaves_world.
Qed.

Lemma iter_chunks_prefix self w0 indices ks w batches e w' :
  0 < self_chunk_size self →
  0 < self_batch_size self →
  reached_from self w0 w →
  Forall (λ k : nat, Z.of_nat k * self_chunk_size self < Py.len indices) ks →
  iter_chunks self (Py.len indices) indices
    ((λ k : nat, Z.of_nat k * self_chunk_size self) <$> ks) w = (batches, e, w') →
  let plan :=
    ((λ k : nat, Py.slice indices (Z.of_nat k * self_chunk_size self)
                   (Z.min (Z.of_nat k * self_chunk_size self + self_chunk_size self)
                      (Py.len indices))) <$> ks)
    ≫= (λ chunk_indices, pair chunk_indices <$> windows chunk_indices (self_batch_size self)) in
  Forall2 (λ (cut : list Z * list Z) b,
             ∃ lo hi chunk_data,
               Py.min_ cut.1 = Ok lo ∧ Py.max_ cut.1 = Ok hi
               ∧ (_load_chunk self lo (hi + 1) w0).1 = Ok chunk_data
               ∧ extract_batch chunk_data cut.2 [] = Ok b)
    (take (length batches) plan) batches
  ∧ (e = None → length batches = length plan).
Proof.
  intros Hcs Hbs Hreach Hks. revert w batches e Hreach.
  induction Hks as [|k ks Hk _ IH]; intros w batches e Hreach.
  { intros [= <- <- <-]. by split. }
  rewrite !fmap_cons, bind_cons. cbn [iter_chunks].
  set (chunk_indices := Py.slice indices _ _).
  assert (chunk_indices ≠ []) as Hne.
  { intros E. apply (f_equal length) in E. unfold chunk_indices in E.
    rewrite window_length in E by done. simpl in E. lia. }
  destruct (min_nonempty chunk_indices Hne) as [lo Elo].
  destruct (max_nonempty chunk_indices Hne) as [hi Ehi].
  rewrite Elo, Ehi.
  destruct (reached_from_load self lo (hi + 1) w0 w Hreach) as [Eload Hreach1].
  destruct (_load_chunk self lo (hi + 1) w) as [[chunk_data|] w1] eqn:El; simpl in *;
    [|intros [= <- <- <-]; by split].
  replace (Py.len chunk_indices) with (Z.of_nat (length chunk_indices)) by done.
  rewrite range_windows by done.
  destruct (iter_batches chunk_data chunk_indices _ _) as [here e1] eqn:Eb.
  destruct (iter_batches_prefix _ _ _ _ _ _ Eb) as [Hhere Hdone].
  fold (windows chunk_indices (self_batch_size self)) in Hhere, Hdone.
  assert (Forall2 (λ (cut : list Z * list Z) b,
             ∃ lo hi chunk_data,
               Py.min_ cut.1 = Ok lo ∧ Py.max_ cut.1 = Ok hi
               ∧ (_load_chunk self lo (hi + 1) w0).1 = Ok chunk_data
               ∧ extract_batch chunk_data cut.2 [] = Ok b)
            (take (length here)
               (pair chunk_indices <$> windows chunk_indices (self_batch_size self))) here)
    as Hcuts.
  { rewrite <- fmap_take. apply Forall2_fmap_l.
    eapply Forall2_impl; [exact Hhere|]. intros idxs b Hb. simpl.
    by exists lo, hi, chunk_data. }
  pose proof (Forall2_length _ _ _ Hhere) as Hshort. rewrite length_take in Hshort.
  destruct e1 as [e1|].
  - intros [= <- <- <-]. split; [|done].
    rewrite take_app_le by (rewrite length_fmap; lia). exact Hcuts.
  - specialize (Hdone eq_refl).
    destruct (iter_chunks self (Py.len indices) indices _ w1) as [[more e2] w2] eqn:Er.
    intros [= <- <- <-]. destruct (IH _ _ _ Hreach1 Er) as [Hmore Hall].
    rewrite length_app. split.
    + rewrite take_app_ge by (rewrite length_fmap; lia).
      rewrite length_fmap, <- Hdone.
      replace (length here + length more - length here)%nat with (length more) by lia.
      apply Forall2_app; [|done].
      rewrite take_ge in Hcuts by (rewrite length_fmap; lia). exact Hcuts.
    + intros He. rewrite length_app, length_fmap, Hall by done. lia.
Qed.

(** C10, as the code has it.  Iteration over [n] declared samples with
    positive chunk and batch sizes yields its batches in the order of the
    plan: the [i]-th batch is cut at the [i]-th window of positions, from
    the chunk that [_load_chunk] returns for the window's chunk.  The
    batch has an entry for every column of that chunk and no other, and
    the entry of a column is the selected values as a float32 tensor when
    the loaded storage is [int64], [float64] or [bool] (a boolean column
    is stored and loaded as booleans, and becomes 1.0 and 0.0 only here),
    and the selected values as the raw array otherwise.  Iteration that
    ends without an exception has yielded a batch for every window. *)
Theorem iter_numeric_columns_as_float32 self (n : nat) w batches e self' w' :
  self_length self = JInt (Z.of_nat n) →
  0 < self_chunk_size self →
  0 < self_batch_size self →
  __iter__ self w = (batches, e, self', w') →
  let plan := chunk_batch_plan (iter_indices self (Z.of_nat n))
                (self_chunk_size self) (self_batch_size self) in
  Forall2 (λ (cut : list Z * list Z) (b : Batch),
             ∃ lo hi chunk_data,
               Py.min_ cut.1 = Ok lo ∧ Py.max_ cut.1 = Ok hi
               ∧ (_load_chunk self lo (hi + 1) w).1 = Ok chunk_data
               ∧ (∀ name series, (name, series) ∈ chunk_data → is_Some (Py.dict_get b name))
               ∧ ∀ name v, (name, v) ∈ b →
                   ∃ series col_data,
                     (name, series) ∈ chunk_data
                     ∧ iloc_take series cut.2 = Ok col_data
                     ∧ is_numeric_dtype col_data = is_numeric_dtype series
                     ∧ match col_data with
                       | ColInt zs => v = Tensor (f32_of_Z <$> zs)
                       | ColFloat xs => v = Tensor (f32_of_f64 <$> xs)
                       | ColBool bs => v = Tensor (f32_of_bool <$> bs)
                       | ColDatetime _ | ColObject _ => v = NdArray col_data
                       end)
    (take (length batches) plan) batches
  ∧ (e = None → length batches = length plan).
Proof.
  intros Hlen Hcs Hbs Hiter plan.
  pose proof (iter_indices_Permutation self n) as Hperm.
  assert (length (iter_indices self (Z.of_nat n)) = n) as Hn.
  { by rewrite Hperm, range1_length. }
  unfold __iter__ in Hiter. rewrite Hlen in Hiter. cbn [as_int] in Hiter.
  set (st := (rng_shuffle (Py.range1 (Z.of_nat n)) (self_rng self)).2) in *.
  set (self1 := if self_shuffle self then set_rng self st else self).
  assert ((if self_shuffle self
           then let '(x, st) := rng_shuffle (Py.range1 (Z.of_nat n)) (self_rng self) in
                (x, set_rng self st)
           else (Py.range1 (Z.of_nat n), self))
          = (iter_indices self (Z.of_nat n), self1)) as E.
  { unfold iter_indices, self1, st. destruct (self_shuffle self); [|done].
    by destruct (rng_shuffle _ _). }
  rewrite E in Hiter. clear E.
  assert (self_chunk_size self1 = self_chunk_size self
          ∧ self_batch_size self1 = self_batch_size self
          ∧ ∀ lo hi w, _load_chunk self1 lo hi w = _load_chunk self lo hi w)
    as (Ecs & Ebs & Eload).
  { unfold self1. by destruct (self_shuffle self). }
  rewrite Ecs, range_windows in Hiter by done.
  destruct (iter_chunks self1 (Z.of_nat n) _ _ w) as [[batches1 e1] w1] eqn:Ec.
  injection Hiter as <- <- <- <-.
  pose proof (iter_chunks_prefix self1 w (iter_indices self (Z.of_nat n))
                (seq 0 (ceil_div n (self_chunk_size self))) w batches1 e1 w1) as Hpre.
  unfold Py.len in Hpre. rewrite Hn, Ecs, Ebs in Hpre.
  destruct Hpre as [Hall Hdone]; [done|done| | |exact Ec|].
  { unfold reached_from. destruct (reads_compressed self1); [apply agree_refl|done]. }
  { apply Forall_forall. intros k Hk%elem_of_seq. apply ceil_div_bounds; [done|lia]. }
  assert (plan
          = ((λ k : nat, Py.slice (iter_indices self (Z.of_nat n))
                           (Z.of_nat k * self_chunk_size self)
                           (Z.min (Z.of_nat k * self_chunk_size self + self_chunk_size self)
                              (Z.of_nat n)))
             <$> seq 0 (ceil_div n (self_chunk_size self)))
            ≫= (λ chunk_indices,
                  pair chunk_indices <$> windows chunk_indices (self_batch_size self)))
    as Eplan.
  { unfold plan, chunk_batch_plan. f_equal. unfold windows, Py.len. by rewrite Hn. }
  rewrite <- Eplan in Hall, Hdone.
  split; [|exact Hdone].
  eapply Forall2_impl; [exact Hall|].
  intros cut b (lo & hi & chunk_data & Elo & Ehi & El & Eb).
  exists lo, hi, chunk_data. rewrite <- Eload. do 3 (split; [done|]).
  apply extract_batch_cut_from in Eb. exact Eb.
Qed.

End every_batch.

Lemma iter_numeric_columns_as_float32_witness :
  let r := __iter__ ten_single (disk_ten "none" 1000) in
  self_length ten_single = JInt (Z.of_nat 10)
  ∧ 0 < self_chunk_size ten_single
  ∧ 0 < self_batch_size ten_single
  ∧ __iter__ ten_single (disk_ten "none" 1000) = (r.1.1.1, r.1.1.2, r.1.2, r.2)
  ∧ (r.1.1.2 = None →
     length r.1.1.1
     = length (chunk_batch_plan (iter_indices ten_single (Z.of_nat 10))
                 (self_chunk_size ten_single) (self_batch_size ten_single))).
Proof.
  intros r.
  assert (self_length ten_single = JInt (Z.of_nat 10)) as H1 by reflexivity.
  assert (0 < self_chunk_size ten_single) as H2 by reflexivity.
  assert (0 < self_batch_size ten_single) as H3 by reflexivity.
  assert (__iter__ ten_single (disk_ten "none" 1000) = (r.1.1.1, r.1.1.2, r.1.2, r.2)) as H4.
  { unfold r. by destruct (__iter__ ten_single (disk_ten "none" 1000)) as [[[??]?]?]. }
  do 4 (split; [assumption|]).
  exact (proj2 (iter_numeric_columns_as_float32 ten_single 10 _ _ _ _ _ H1 H2 H3 H4)).
Defined.

(** C10 as stated has booleans persisted as 0/1 integers.  They are not:
    the shard written for [ten] holds the column [ok] as booleans, the
    chunk loaded from it has that column with [bool] storage, not
    integer storage, and the batch cut from it carries 1.0 and 0.0. *)
Lemma bool_column_not_stored_as_integers :
  let w := disk_ten "none" 1000 in
  files w !! "out/shard.00000.parquet" = Some (Parquet ten)
  ∧ ∃ chunk_data series,
      (_load_chunk ten_single 0 4 w).1 = Ok chunk_data
      ∧ Py.dict_get chunk_data "ok" = Some series
      ∧ is_bool_dtype series = true
      ∧ is_integer_dtype series = false
      ∧ (∀ zs, series ≠ ColInt zs)
      ∧ (__iter__ ten_single w).1.1.1 !! 0%nat
          ≫= (λ b : Batch, Py.dict_get b "ok")
        = Some (Tensor (f32_of_bool <$> [true; false; true])).
Proof.
  split; [by vm_compute|].
  exists ten, (ColBool [true; false; true; false; true; false; true; false; true; false]).
  split; [by vm_compute|]. split; [by vm_compute|]. split; [done|]. split; [done|].
  split; [done|]. by vm_compute.
Qed.

(** * Further properties of the reader and the writer *)

(** ** Random access *)

Lemma extract_sample_distinct columns pos acc :
  NoDup (acc.*1 ++ columns.*1) →
  Forall (λ nc, 0 ≤ pos < Z.of_nat (col_len nc.2)) columns →
  ∃ picked,
    extract_sample columns pos acc = Ok (acc ++ picked)
    ∧ prod_map id Some <$> picked = row_at columns (Z.to_nat pos).
Proof.
  intros Hnd Hcols. revert acc Hnd.
  induction Hcols as [|[col series] rest Hpos _ IH]; intros acc Hnd; simpl.
  { exists []. by rewrite app_nil_r. }
  unfold iloc_at. destruct (at_in_range (cells series) pos Hpos) as (x & -> & Hx). simpl.
  rewrite fmap_cons in Hnd. simpl in Hnd.
  apply NoDup_app in Hnd as Hnd'. destruct Hnd' as (_ & Hdisj & _).
  rewrite dict_set_fresh by (intros Hin; apply (Hdisj _ Hin); by left).
  destruct (IH (acc ++ [(col, x)])) as (picked & E & Hrow).
  { rewrite fmap_app. simpl. by rewrite <- app_assoc. }
  exists ((col, x) :: picked). rewrite E, <- app_assoc. split; [done|].
  unfold row_at in *. rewrite !fmap_cons. simpl. by rewrite Hx, Hrow.
Qed.

Section random_access.
Context `{RandomGen}.

(** X1.  Random access reads the first shard at the offset of [idx] in its
    chunk window: for [0 <= idx < length] it returns the row of the first
    shard at position [idx mod chunk_size], with every cell as stored. *)
Theorem getitem_returns_row_at_offset self chunk_data (n : nat) idx w :
  first_shard_holds self chunk_data w →
  self_length self = JInt (Z.of_nat n) →
  NoDup chunk_data.*1 →
  0 < self_chunk_size self →
  0 ≤ idx < Z.of_nat n →
  Forall (λ nc, idx `mod` self_chunk_size self < Z.of_nat (col_len nc.2)) chunk_data →
  ∃ sample w',
    __getitem__ self idx w = (Ok sample, w')
    ∧ prod_map id Some <$> sample
      = row_at chunk_data (Z.to_nat (idx `mod` self_chunk_size self)).
Proof.
  intros Hshard Hlen Hnd Hcs Hidx Hrows. unfold __getitem__.
  destruct (Z.ltb_spec idx 0); [lia|]. rewrite Hlen. cbn [as_int].
  destruct (Z.geb_spec idx (Z.of_nat n)); [lia|].
  destruct (Z.eqb_spec (self_chunk_size self) 0); [lia|].
  set (chunk_start := idx / self_chunk_size self * self_chunk_size self).
  destruct (load_chunk_first_shard self chunk_data chunk_start
              (Z.min (chunk_start + self_chunk_size self) (Z.of_nat n)) w Hshard)
    as (w' & -> & _).
  assert (idx - chunk_start = idx `mod` self_chunk_size self) as ->.
  { unfold chunk_start. rewrite Z.mod_eq by lia. lia. }
  destruct (extract_sample_distinct chunk_data (idx `mod` self_chunk_size self) [])
    as (picked & E & Hrow); [done| |].
  { eapply Forall_impl; [exact Hrows|]. intros nc Hnc. simpl in *.
    pose proof (Z.mod_pos_bound idx (self_chunk_size self) Hcs). lia. }
  exists picked, w'. by rewrite E.
Qed.

End random_access.

Lemma getitem_returns_row_at_offset_witness :
  first_shard_holds ten_single ten (disk_ten "none" 1000)
  ∧ self_length ten_single = JInt (Z.of_nat 10)
  ∧ NoDup ten.*1
  ∧ 0 < self_chunk_size ten_single
  ∧ 0 ≤ 9 < Z.of_nat 10
  ∧ Forall (λ nc, 9 `mod` self_chunk_size ten_single < Z.of_nat (col_len nc.2)) ten
  ∧ ∃ sample w',
      __getitem__ ten_single 9 (disk_ten "none" 1000) = (Ok sample, w')
      ∧ prod_map id Some <$> sample = row_at ten 1.
Proof.
  assert (first_shard_holds ten_single ten (disk_ten "none" 1000)) as H1.
  { split; [reflexivity|]. exists "out/shard.00000.parquet". split; reflexivity. }
  assert (self_length ten_single = JInt (Z.of_nat 10)) as H2 by reflexivity.
  assert (NoDup ten.*1) as H3 by (apply (bool_decide_unpack _); vm_compute; exact I).
  assert (0 < self_chunk_size ten_single) as H4 by reflexivity.
  assert (0 ≤ 9 < Z.of_nat 10) as H5 by (split; [discriminate|reflexivity]).
  assert (Forall (λ nc, 9 `mod` self_chunk_size ten_single < Z.of_nat (col_len nc.2)) ten)
    as H6 by (repeat constructor).
  do 6 (split; [assumption|]).
  exact (getitem_returns_row_at_offset ten_single ten 10 9 _ H1 H2 H3 H4 H5 H6).
Defined.

(** ** The temporary file, in general *)

Section temp_file.
Context `{RandomGen}.

(** X2.  A compressed first shard that decompresses and parses is read
    through one temporary file, which is removed before [_load_chunk]
    returns: afterwards the file system holds no file under that name and
    every other file is as before. *)
Theorem load_chunk_removes_temp_file self chunk_data start_idx end_idx w :
  reads_compressed self = true →
  first_shard_holds self chunk_data w →
  ∃ w', _load_chunk self start_idx end_idx w = (Ok chunk_data, w')
    ∧ files w' = delete (temp_name (tmp_counter w)) (files w)
    ∧ dirs w' = dirs w
    ∧ tmp_counter w' = S (tmp_counter w).
Proof.
  intros Hz (Hfmt & path & Hpath & Hfile).
  unfold reads_compressed in Hz. unfold _load_chunk. rewrite Hfmt, Hpath in *.
  rewrite Hz. unfold shard_blob in Hfile. rewrite Hz in Hfile.
  unfold read_file at 1. rewrite Hfile. simpl.
  unfold read_parquet, read_file, write_temp. simpl. rewrite lookup_insert_eq. simpl.
  eexists. split; [done|]. simpl. split; [|done].
  by rewrite delete_insert_eq.
Qed.

(** X3.  When the compressed first shard decompresses to something that
    is not a columnar block, [_load_chunk] raises and leaves the
    temporary file behind, holding the decompressed bytes. *)
Theorem load_chunk_leaks_on_parse_failure self shard_path payload start_idx end_idx w :
  self_format self = custom_streaming →
  first_shard_path (self_data_path self) (self_shards self) = Ok shard_path →
  Py.endswith shard_path ".zstd" = true →
  files w !! shard_path = Some (Zstd payload) →
  (∀ df, payload ≠ Parquet df) →
  ∃ w', _load_chunk self start_idx end_idx w = (Raise ArrowInvalid, w')
    ∧ files w' = <[temp_name (tmp_counter w) := payload]> (files w).
Proof.
  intros Hfmt Hpath Hz Hfile Hbad. unfold _load_chunk. rewrite Hfmt, Hpath, Hz.
  unfold read_file at 1. rewrite Hfile. simpl.
  unfold read_parquet, read_file, write_temp. simpl. rewrite lookup_insert_eq. simpl.
  destruct payload; try (eexists; split; done). by destruct (Hbad df).
Qed.

(** X4.  Iteration does not touch the dataset: whatever it yields and
    however it ends, the directories are as before and so is every file
    whose name does not end in [.parquet] (the manifest and the
    compressed shards among them); only temporary files can differ. *)
Theorem iter_leaves_dataset_files self w p :
  Py.endswith p ".parquet" = false →
  dirs (__iter__ self w).2 = dirs w
  ∧ files (__iter__ self w).2 !! p = files w !! p.
Proof.
  intros Hp. destruct (iter_frame self w) as [Hd Hf]. split; [done|].
  symmetry. by apply Hf.
Qed.

End temp_file.

Lemma load_chunk_removes_temp_file_witness :
  reads_compressed ten_shuffled = true
  ∧ first_shard_holds ten_shuffled ten (disk_ten "zstd" 1000)
  ∧ ∃ w', _load_chunk ten_shuffled 0 4 (disk_ten "zstd" 1000) = (Ok ten, w')
      ∧ files w' = delete (temp_name 0) (files (disk_ten "zstd" 1000)).
Proof.
  assert (reads_compressed ten_shuffled = true) as H1 by reflexivity.
  assert (first_shard_holds ten_shuffled ten (disk_ten "zstd" 1000)) as H2.
  { split; [reflexivity|]. exists "out/shard.00000.parquet.zstd". split; reflexivity. }
  do 2 (split; [assumption|]).
  destruct (load_chunk_removes_temp_file ten_shuffled ten 0 4 _ H1 H2)
    as (w' & E & Hf & _).
  exists w'. split; [exact E|exact Hf].
Defined.

Lemma load_chunk_leaks_on_parse_failure_witness :
  self_format bad_shard_dataset = custom_streaming
  ∧ first_shard_path (self_data_path bad_shard_dataset) (self_shards bad_shard_dataset)
    = Ok "d/shard.00000.parquet.zstd"
  ∧ Py.endswith "d/shard.00000.parquet.zstd" ".zstd" = true
  ∧ files disk_bad_shard !! "d/shard.00000.parquet.zstd" = Some (Zstd (Garbage "truncated"))
  ∧ (∀ df, Garbage "truncated" ≠ Parquet df)
  ∧ ∃ w', _load_chunk bad_shard_dataset 0 1 disk_bad_shard = (Raise ArrowInvalid, w')
      ∧ files w' = <[temp_name 0 := Garbage "truncated"]> (files disk_bad_shard).
Proof.
  assert (self_format bad_shard_dataset = custom_streaming) as H1 by reflexivity.
  assert (first_shard_path (self_data_path bad_shard_dataset) (self_shards bad_shard_dataset)
          = Ok "d/shard.00000.parquet.zstd") as H2 by reflexivity.
  assert (Py.endswith "d/shard.00000.parquet.zstd" ".zstd" = true) as H3 by reflexivity.
  assert (files disk_bad_shard !! "d/shard.00000.parquet.zstd"
          = Some (Zstd (Garbage "truncated"))) as H4 by reflexivity.
  assert (∀ df, Garbage "truncated" ≠ Parquet df) as H5 by (intros df; discriminate).
  do 5 (split; [assumption|]).
  exact (load_chunk_leaks_on_parse_failure bad_shard_dataset _ _ 0 1 _ H1 H2 H3 H4 H5).
Defined.

Lemma iter_leaves_dataset_files_witness :
  Py.endswith "out/index.json" ".parquet" = false
  ∧ files (__iter__ ten_shuffled (disk_ten "zstd" 1000)).2 !! "out/index.json"
    = files (disk_ten "zstd" 1000) !! "out/index.json".
Proof.
  assert (Py.endswith "out/index.json" ".parquet" = false) as H1 by reflexivity.
  split; [exact H1|].
  exact (proj2 (iter_leaves_dataset_files ten_shuffled (disk_ten "zstd" 1000) _ H1)).
Defined.

(** ** Every row once, in the order of the permutation *)

Section permuted.
Context `{RandomGen}.

(** X5.  When the first shard holds the whole table, iteration with or
    without shuffling returns every row exactly once: the records of the
    batches, concatenated, are the rows of the table at the positions of
    the permutation, in its order, hence a permutation of the rows. *)
Theorem iter_returns_every_row_once self chunk_data w :
  first_shard_holds self chunk_data w →
  df_wf chunk_data →
  self_length self = JInt (Z.of_nat (df_len chunk_data)) →
  0 < self_chunk_size self →
  0 < self_batch_size self →
  ∃ batches self' w',
    __iter__ self w = (batches, None, self', w')
    ∧ concat (batch_records <$> batches)
      = (λ i, returned_row (row_at chunk_data (Z.to_nat i)))
        <$> iter_indices self (Z.of_nat (df_len chunk_data))
    ∧ concat (batch_records <$> batches) ≡ₚ returned_row <$> rows chunk_data.
Proof.
  intros Hshard Hwf Hlen Hcs Hbs. set (n := df_len chunk_data) in *.
  destruct (iter_plan self chunk_data n w Hshard Hlen) as (batches & self' & w' & E & Hall);
    [|done|done|].
  { destruct Hwf as [_ Hlens]. eapply Forall_impl; [exact Hlens|]. by intros nc ->. }
  exists batches, self', w'. split; [done|].
  set (F := λ i : Z, returned_row (row_at chunk_data (Z.to_nat i))).
  assert (concat (batch_records <$> batches) = F <$> iter_indices self (Z.of_nat n)) as Erows.
  { assert (batch_records <$> batches
            = (λ idxs : list Z, F <$> idxs)
              <$> batch_plan (iter_indices self (Z.of_nat n))
                    (self_chunk_size self) (self_batch_size self)) as ->.
    { assert (Forall (Forall (λ i, 0 ≤ i < Z.of_nat n))
                (batch_plan (iter_indices self (Z.of_nat n))
                   (self_chunk_size self) (self_batch_size self))) as Hrange.
      { apply Forall_concat. rewrite batch_plan_concat by done.
        apply iter_indices_in_range. }
      revert Hrange Hall. clear E.
      generalize (batch_plan (iter_indices self (Z.of_nat n))
                    (self_chunk_size self) (self_batch_size self)).
      intros plan Hrange Hall. induction Hall as [|b idxs bs plan Hb _ IH]; [done|].
      apply Forall_cons in Hrange as [Hidxs Hrange].
      rewrite !fmap_cons, IH by done.
      by rewrite (batch_records_extract chunk_data idxs b). }
    by rewrite concat_fmap_each, batch_plan_concat. }
  split; [done|]. rewrite Erows, (iter_indices_Permutation self n).
  unfold rows, Py.range1. fold n. rewrite Nat2Z.id, <- !list_fmap_compose.
  assert (F ∘ Z.of_nat <$> seq 0 n = returned_row ∘ row_at chunk_data <$> seq 0 n) as ->; [|done].
  apply list_fmap_ext. intros ? i _. unfold F. simpl. by rewrite Nat2Z.id.
Qed.

End permuted.

Lemma iter_returns_every_row_once_witness :
  first_shard_holds ten_shuffled ten (disk_ten "zstd" 1000)
  ∧ df_wf ten
  ∧ self_length ten_shuffled = JInt (Z.of_nat (df_len ten))
  ∧ 0 < self_chunk_size ten_shuffled
  ∧ 0 < self_batch_size ten_shuffled
  ∧ ∃ batches self' w',
      __iter__ ten_shuffled (disk_ten "zstd" 1000) = (batches, None, self', w')
      ∧ concat (batch_records <$> batches) ≡ₚ returned_row <$> rows ten.
Proof.
  assert (first_shard_holds ten_shuffled ten (disk_ten "zstd" 1000)) as H1.
  { split; [reflexivity|]. exists "out/shard.00000.parquet.zstd". split; reflexivity. }
  assert (df_wf ten) as H2.
  { split; [apply (bool_decide_unpack _); vm_compute; exact I|repeat constructor]. }
  assert (self_length ten_shuffled = JInt (Z.of_nat (df_len ten))) as H3 by reflexivity.
  assert (0 < self_chunk_size ten_shuffled) as H4 by reflexivity.
  assert (0 < self_batch_size ten_shuffled) as H5 by reflexivity.
  do 5 (split; [assumption|]).
  destruct (iter_returns_every_row_once ten_shuffled ten _ H1 H2 H3 H4 H5)
    as (batches & self' & w' & E & _ & Hperm).
  exists batches, self', w'. split; [exact E|exact Hperm].
Defined.

(** ** Edge cases of the conversion *)

Lemma range_negative_step (n : nat) step : step < 0 → Py.range 0 (Z.of_nat n) step = Ok [].
Proof.
  intros Hstep. unfold Py.range, Py.range_len.
  destruct (Z.eqb_spec step 0); [lia|]. destruct (Z.ltb_spec 0 step); [lia|].
  by destruct (Z.ltb_spec (Z.of_nat n) 0); [lia|].
Qed.

(** X6.  A chunk size of zero is rejected with [ValueError] (by [range])
    after the table has been read: the output directory has been created,
    no shard and no manifest is written. *)
Theorem convert_rejects_zero_chunk_size df input_path output_dir compression w :
  load_input input_path w = Ok df →
  files w !! output_dir = None →
  ∃ w', convert_to_streaming_format input_path output_dir compression 0 w
        = (Raise ValueError, w')
    ∧ files w' = files w
    ∧ dirs w' = {[output_dir]} ∪ dirs w.
Proof.
  intros Hin Hout. unfold convert_to_streaming_format, makedirs. rewrite Hout.
  rewrite (load_input_files _ w _ df) by done. simpl. by eexists.
Qed.

(** X7.  A negative chunk size is not rejected: the shard loop does not
    run, and a manifest is written that declares all the rows of the
    table and no shard. *)
Theorem convert_negative_chunk_size_writes_no_shard df input_path output_dir compression
    chunk_size w :
  load_input input_path w = Ok df →
  files w !! output_dir = None →
  chunk_size < 0 →
  ∃ w', convert_to_streaming_format input_path output_dir compression chunk_size w
        = (Ok (), w')
    ∧ files w' = <[Py.path_join output_dir "index.json"
                   := JsonText (make_index (df_len df) (column_types df) [])]> (files w).
Proof.
  intros Hin Hout Hneg. unfold convert_to_streaming_format, makedirs. rewrite Hout.
  rewrite (load_input_files _ w _ df) by done.
  rewrite range_negative_step by done. simpl. by eexists.
Qed.

(** X8.  An input path with none of the extensions [.csv], [.parquet],
    [.json] raises [ValueError]; the output directory has already been
    created and nothing else is written. *)
Theorem convert_rejects_unknown_extension input_path output_dir compression chunk_size w :
  Py.endswith input_path ".csv" = false →
  Py.endswith input_path ".parquet" = false →
  Py.endswith input_path ".json" = false →
  files w !! output_dir = None →
  ∃ w', convert_to_streaming_format input_path output_dir compression chunk_size w
        = (Raise ValueError, w')
    ∧ files w' = files w
    ∧ dirs w' = {[output_dir]} ∪ dirs w.
Proof.
  intros Hcsv Hpq Hjson Hout. unfold convert_to_streaming_format, makedirs, load_input.
  rewrite Hout, Hcsv, Hpq, Hjson. by eexists.
Qed.

Lemma convert_rejects_zero_chunk_size_witness :
  load_input "in.parquet" disk0 = Ok ten
  ∧ files disk0 !! "out" = None
  ∧ ∃ w', convert_to_streaming_format "in.parquet" "out" "zstd" 0 disk0
          = (Raise ValueError, w')
      ∧ files w' = files disk0.
Proof.
  assert (load_input "in.parquet" disk0 = Ok ten) as H1 by reflexivity.
  assert (files disk0 !! "out" = None) as H2 by reflexivity.
  do 2 (split; [assumption|]).
  destruct (convert_rejects_zero_chunk_size ten "in.parquet" "out" "zstd" disk0 H1 H2)
    as (w' & E & Hf & _).
  exists w'. split; [exact E|exact Hf].
Defined.

Lemma convert_negative_chunk_size_writes_no_shard_witness :
  load_input "in.parquet" disk0 = Ok ten
  ∧ files disk0 !! "out" = None
  ∧ -4 < 0
  ∧ ∃ w', convert_to_streaming_format "in.parquet" "out" "zstd" (-4) disk0 = (Ok (), w')
      ∧ files w' = <["out/index.json"
                     := JsonText (make_index 10 (column_types ten) [])]> (files disk0).
Proof.
  assert (load_input "in.parquet" disk0 = Ok ten) as H1 by reflexivity.
  assert (files disk0 !! "out" = None) as H2 by reflexivity.
  assert (-4 < 0) as H3 by reflexivity.
  do 3 (split; [assumption|]).
  exact (convert_negative_chunk_size_writes_no_shard ten "in.parquet" "out" "zstd" (-4)
           disk0 H1 H2 H3).
Defined.

Lemma convert_rejects_unknown_extension_witness :
  Py.endswith "table.xlsx" ".csv" = false
  ∧ Py.endswith "table.xlsx" ".parquet" = false
  ∧ Py.endswith "table.xlsx" ".json" = false
  ∧ files disk0 !! "out" = None
  ∧ ∃ w', convert_to_streaming_format "table.xlsx" "out" "zstd" 1000 disk0
          = (Raise ValueError, w')
      ∧ files w' = files disk0.
Proof.
  assert (Py.endswith "table.xlsx" ".csv" = false) as H1 by reflexivity.
  assert (Py.endswith "table.xlsx" ".parquet" = false) as H2 by reflexivity.
  assert (Py.endswith "table.xlsx" ".json" = false) as H3 by reflexivity.
  assert (files disk0 !! "out" = None) as H4 by reflexivity.
  do 4 (split; [assumption|]).
  destruct (convert_rejects_unknown_extension "table.xlsx" "out" "zstd" 1000 disk0
              H1 H2 H3 H4) as (w' & E & Hf & _).
  exists w'. split; [exact E|exact Hf].
Defined.

(** ** Opening *)

Section opening.
Context `{RandomGen}.

(** X9.  Conversion and opening compose: the directory written for a
    table, opened with any reader settings, is a dataset whose length is
    the table's row count, whose columns are the inferred tags and whose
    shard list is the names of the shards written, in order. *)
Theorem open_converted df input_path output_dir compression shard_rows
    batch_size shuffle seed chunk_size fresh w :
  0 < shard_rows →
  load_input input_path w = Ok df →
  files w !! output_dir = None →
  ∃ w1 ds,
    convert_to_streaming_format input_path output_dir compression shard_rows w = (Ok (), w1)
    ∧ __init__ output_dir batch_size shuffle seed chunk_size fresh w1 = Ok ds
    ∧ __len__ ds = JInt (Z.of_nat (df_len df))
    ∧ self_columns ds = JObj (prod_map id JStr <$> column_types df)
    ∧ self_shards ds
      = JArr (JStr <$> (nth_shard_name compression
                          <$> seq 0 (ceil_div (df_len df) shard_rows))).
Proof.
  intros Hsr Hin Hout.
  destruct (convert_to_streaming_format_spec df input_path output_dir compression shard_rows w
              Hsr Hin Hout) as (w1 & Econv & Hindex & _).
  pose proof (convert_makes_directory input_path output_dir compression shard_rows w Hout)
    as Hdir. rewrite Econv in Hdir. simpl in Hdir.
  pose proof (init_converted output_dir batch_size shuffle seed chunk_size fresh w1 _ _ _
                Hdir Hindex) as Einit.
  eexists w1, _. split; [done|]. split; [exact Einit|]. done.
Qed.

End opening.

Lemma open_converted_witness :
  0 < 4
  ∧ load_input "in.parquet" disk0 = Ok ten
  ∧ files disk0 !! "out" = None
  ∧ ∃ w1 ds,
      convert_to_streaming_format "in.parquet" "out" "zstd" 4 disk0 = (Ok (), w1)
      ∧ __init__ "out" 32 true (Some 1) 1000 0 w1 = Ok ds
      ∧ __len__ ds = JInt 10.
Proof.
  assert (0 < 4) as H1 by reflexivity.
  assert (load_input "in.parquet" disk0 = Ok ten) as H2 by reflexivity.
  assert (files disk0 !! "out" = None) as H3 by reflexivity.
  do 3 (split; [assumption|]).
  destruct (open_converted ten "in.parquet" "out" "zstd" 4 32 true (Some 1) 1000 0 disk0
              H1 H2 H3) as (w1 & ds & E1 & E2 & E3 & _).
  exists w1, ds. split; [exact E1|]. split; [exact E2|exact E3].
Defined.

(** ** Degenerate settings of the reader *)

Section bounds.
Context `{RandomGen}.

(** X10.  With a chunk size of zero iteration raises [ValueError] before
    any batch, and with a negative chunk size it ends at once without an
    exception and without a batch, although the dataset has rows; neither
    reads a file.  Random access with a chunk size of zero raises
    [ZeroDivisionError]. *)
Theorem nonpositive_chunk_size self (n : nat) w :
  self_length self = JInt (Z.of_nat n) →
  self_chunk_size self ≤ 0 →
  (__iter__ self w).1.1
  = ([], if decide (self_chunk_size self = 0) then Some ValueError else None)
  ∧ (__iter__ self w).2 = w
  ∧ ∀ idx, 0 ≤ idx < Z.of_nat n → self_chunk_size self = 0 →
      __getitem__ self idx w = (Raise ZeroDivisionError, w).
Proof.
  intros Hlen Hcs.
  assert (∀ self1 : Dataset, self_chunk_size self1 = self_chunk_size self →
            ∀ indices,
              (match Py.range 0 (Z.of_nat n) (self_chunk_size self1) with
               | Raise e => ([], Some e, self1, w)
               | Ok starts =>
                   let '(batches, e, w0) := iter_chunks self1 (Z.of_nat n) indices starts w in
                   (batches, e, self1, w0)
               end)
              = ([], if decide (self_chunk_size self = 0) then Some ValueError else None,
                 self1, w)) as Hrun.
  { intros self1 -> indices. destruct (decide (self_chunk_size self = 0)) as [->|Hne].
    - done.
    - by rewrite range_negative_step by lia. }
  split; [|split].
  - unfold __iter__. rewrite Hlen. cbn [as_int].
    destruct (self_shuffle self).
    + destruct (rng_shuffle _ _) as [x st]. by rewrite Hrun.
    + by rewrite Hrun.
  - unfold __iter__. rewrite Hlen. cbn [as_int].
    destruct (self_shuffle self).
    + destruct (rng_shuffle _ _) as [x st]. by rewrite Hrun.
    + by rewrite Hrun.
  - intros idx Hidx Hzero. unfold __getitem__.
    destruct (Z.ltb_spec idx 0); [lia|]. rewrite Hlen. cbn [as_int].
    destruct (Z.geb_spec idx (Z.of_nat n)); [lia|]. by rewrite Hzero.
Qed.

End bounds.

Lemma nonpositive_chunk_size_witness :
  self_length ten_negative_chunk = JInt (Z.of_nat 10)
  ∧ self_chunk_size ten_negative_chunk ≤ 0
  ∧ (__iter__ ten_negative_chunk (disk_ten "none" 1000)).1.1 = ([], None).
Proof.
  assert (self_length ten_negative_chunk = JInt (Z.of_nat 10)) as H1 by reflexivity.
  assert (self_chunk_size ten_negative_chunk ≤ 0) as H2 by discriminate.
  do 2 (split; [assumption|]).
  exact (proj1 (nonpositive_chunk_size ten_negative_chunk 10 (disk_ten "none" 1000) H1 H2)).
Defined.

(** ** Random access is repeatable *)

Section repeatable.
Context `{RandomGen}.

Lemma getitem_leaves_world self idx w :
  reads_compressed self = false → (__getitem__ self idx w).2 = w.
Proof.
  intros Hr. unfold __getitem__. destruct (idx <? 0); [done|].
  destruct (as_int _) as [length|]; [|done].
  destruct (idx >=? length); [done|]. destruct (self_chunk_size self =? 0); [done|].
  match goal with
  | |- context [_load_chunk self ?a ?b w] =>
      pose proof (load_chunk_leaves_world self a b w Hr) as Hw;
      destruct (_load_chunk self a b w) as [[chunk_data|] w1]
  end; simpl in *; by subst.
Qed.

Lemma getitem_frame self idx w : agree_off_temps w (__getitem__ self idx w).2.
Proof.
  unfold __getitem__. destruct (idx <? 0); [apply agree_refl|].
  destruct (as_int _) as [length|]; [|apply agree_refl].
  destruct (idx >=? length); [apply agree_refl|].
  destruct (self_chunk_size self =? 0); [apply agree_refl|].
  match goal with
  | |- context [_load_chunk self ?a ?b w] =>
      pose proof (load_chunk_frame self a b w) as Hw;
      destruct (_load_chunk self a b w) as [[chunk_data|] w1]
  end; done.
Qed.

Lemma getitem_agree self idx w w' :
  reads_compressed self = true →
  agree_off_temps w w' →
  (__getitem__ self idx w).1 = (__getitem__ self idx w').1.
Proof.
  intros Hr Hagree. unfold __getitem__. destruct (idx <? 0); [done|].
  destruct (as_int _) as [length|]; [|done].
  destruct (idx >=? length); [done|]. destruct (self_chunk_size self =? 0); [done|].
  match goal with
  | |- context [_load_chunk self ?a ?b w] =>
      destruct (load_chunk_agree self a b w w' Hr Hagree) as [E _];
      destruct (_load_chunk self a b w) as [r w1];
      destruct (_load_chunk self a b w') as [r' w1']
  end. simpl in E. subst r'. by destruct r.
Qed.

(** X11.  Random access is repeatable and leaves iteration alone: asking
    for the same index again gives the same answer (sample or exception),
    and iterating after the access yields the same batches, ending the
    same way, as iterating without it. *)
Theorem getitem_repeatable self idx w :
  (__getitem__ self idx (__getitem__ self idx w).2).1 = (__getitem__ self idx w).1
  ∧ (__iter__ self (__getitem__ self idx w).2).1.1 = (__iter__ self w).1.1.
Proof.
  destruct (reads_compressed self) eqn:Hr.
  - pose proof (getitem_frame self idx w) as Hagree. split.
    + symmetry. by apply getitem_agree.
    + destruct (iter_agree self w _ Hr Hagree) as [E _]. by rewrite E.
  - by rewrite getitem_leaves_world.
Qed.

End repeatable.

(** ** Beyond the first shard *)

Lemma at_raises {A} (l : list A) i e : Py.at_ l i = Raise e → e = IndexError.
Proof.
  unfold Py.at_. destruct (_ <? 0); [by intros [= <-]|].
  destruct (l !! _); [done|]. by intros [= <-].
Qed.

Lemma take_raises {A} (l : list A) idxs e : Py.take_ l idxs = Raise e → e = IndexError.
Proof.
  induction idxs as [|i idxs IH]; simpl; [done|].
  destruct (Py.at_ l i) eqn:Ei; simpl; [|intros [= <-]; by eapply at_raises].
  destruct (Py.take_ l idxs); simpl; [done|]. intros [= <-]. by apply IH.
Qed.

Lemma take_out_of_range {A} (l : list A) idxs :
  Exists (λ i, Py.len l ≤ i) idxs → Py.take_ l idxs = Raise IndexError.
Proof.
  induction 1 as [i idxs Hi|i idxs _ IH]; simpl.
  - by rewrite at_out_of_range.
  - destruct (Py.at_ l i) eqn:Ei; simpl; [by rewrite IH|].
    by rewrite (at_raises _ _ _ Ei).
Qed.

Lemma iloc_take_raises series idxs e : iloc_take series idxs = Raise e → e = IndexError.
Proof.
  unfold iloc_take. destruct series; simpl;
    destruct (Py.take_ _ idxs) eqn:E; simpl; try done; intros [= <-]; by eapply take_raises.
Qed.

Lemma iloc_take_out_of_range series idxs :
  Exists (λ i, Z.of_nat (col_len series) ≤ i) idxs → iloc_take series idxs = Raise IndexError.
Proof.
  unfold iloc_take, col_len. destruct series; simpl; rewrite length_fmap; intros Hex;
    by rewrite take_out_of_range.
Qed.

Lemma extract_batch_raises columns idxs acc e :
  extract_batch columns idxs acc = Raise e → e = IndexError.
Proof.
  revert acc. induction columns as [|[col series] rest IH]; intros acc; simpl; [done|].
  destruct (iloc_take series idxs) as [col_data|] eqn:Et; simpl;
    [|intros [= <-]; by eapply iloc_take_raises].
  rewrite <- (iloc_take_dtype _ _ _ Et). destruct col_data; simpl; apply IH.
Qed.

Section beyond.
Context `{RandomGen}.

Lemma iter_batches_raises chunk_data chunk_indices batch_size starts e :
  (iter_batches chunk_data chunk_indices batch_size starts).2 = Some e → e = IndexError.
Proof.
  induction starts as [|batch_start rest IH]; simpl; [done|].
  destruct (extract_batch chunk_data _ []) eqn:Eb; simpl.
  - by destruct (iter_batches chunk_data chunk_indices batch_size rest).
  - intros [= <-]. by eapply extract_batch_raises.
Qed.

Lemma iter_batches_out_of_range col series rest chunk_indices batch_size ks :
  Exists (λ i, Z.of_nat (col_len series) ≤ i)
    (concat ((λ k : nat, Py.slice chunk_indices (Z.of_nat k * batch_size)
                           (Z.min (Z.of_nat k * batch_size + batch_size)
                              (Py.len chunk_indices))) <$> ks)) →
  (iter_batches ((col, series) :: rest) chunk_indices batch_size
     ((λ k : nat, Z.of_nat k * batch_size) <$> ks)).2 = Some IndexError.
Proof.
  induction ks as [|k ks IH]; [by intros ?%Exists_nil|].
  rewrite !fmap_cons. cbn [concat iter_batches]. intros [Hhere|Hrest]%Exists_app.
  - cbn [extract_batch]. by rewrite iloc_take_out_of_range.
  - destruct (extract_batch _ _ []) eqn:Eb.
    + specialize (IH Hrest). by destruct (iter_batches _ chunk_indices batch_size _).
    + simpl. f_equal. by eapply extract_batch_raises.
Qed.

Lemma iter_chunks_out_of_range self col series rest indices ks w :
  first_shard_holds self ((col, series) :: rest) w →
  0 < self_chunk_size self →
  0 < self_batch_size self →
  Forall (λ k : nat, Z.of_nat k * self_chunk_size self < Py.len indices) ks →
  Exists (λ i, Z.of_nat (col_len series) ≤ i)
    (concat ((λ k : nat, Py.slice indices (Z.of_nat k * self_chunk_size self)
                           (Z.min (Z.of_nat k * self_chunk_size self + self_chunk_size self)
                              (Py.len indices))) <$> ks)) →
  (iter_chunks self (Py.len indices) indices
     ((λ k : nat, Z.of_nat k * self_chunk_size self) <$> ks) w).1.2 = Some IndexError.
Proof.
  intros Hw Hcs Hbs Hks. revert w Hw.
  induction Hks as [|k ks Hk _ IH]; intros w Hw; [by intros ?%Exists_nil|].
  rewrite !fmap_cons. cbn [concat iter_chunks].
  set (chunk_indices := Py.slice indices _ _). intros Hex.
  assert (chunk_indices ≠ []) as Hne.
  { intros E. apply (f_equal length) in E. unfold chunk_indices in E.
    rewrite window_length in E by done. simpl in E. lia. }
  destruct (min_nonempty chunk_indices Hne) as [lo ->].
  destruct (max_nonempty chunk_indices Hne) as [hi ->].
  destruct (load_chunk_first_shard self _ lo (hi + 1) w Hw) as (w1 & -> & Hw1).
  replace (Py.len chunk_indices) with (Z.of_nat (length chunk_indices)) by done.
  rewrite range_windows by done.
  destruct (iter_batches _ chunk_indices _ _) as [here [e|]] eqn:Eb.
  - simpl. f_equal. eapply iter_batches_raises. by rewrite Eb.
  - apply Exists_app in Hex as [Hhere|Hrest].
    + pose proof (iter_batches_out_of_range col series rest chunk_indices
                    (self_batch_size self)
                    (seq 0 (ceil_div (length chunk_indices) (self_batch_size self)))) as Hb.
      rewrite Eb in Hb. simpl in Hb. discriminate Hb.
      change (Exists (λ i, Z.of_nat (col_len series) ≤ i)
                (concat (windows chunk_indices (self_batch_size self)))).
      by rewrite windows_concat.
    + specialize (IH w1 Hw1 Hrest).
      by destruct (iter_chunks self (Py.len indices) indices _ w1) as [[more e] w2].
Qed.

(** X12.  A dataset that declares more samples than its first shard has
    rows cannot be iterated to the end: with positive chunk and batch
    sizes, shuffled or not, iteration ends with [IndexError], raised by
    the first batch that selects a position beyond the first shard. *)
Theorem iter_fails_beyond_first_shard self col series rest (n : nat) w :
  first_shard_holds self ((col, series) :: rest) w →
  self_length self = JInt (Z.of_nat n) →
  (col_len series < n)%nat →
  0 < self_chunk_size self →
  0 < self_batch_size self →
  (__iter__ self w).1.1.2 = Some IndexError.
Proof.
  intros Hw Hlen Hshort Hcs Hbs.
  pose proof (iter_indices_Permutation self n) as Hperm.
  assert (length (iter_indices self (Z.of_nat n)) = n) as Hn.
  { by rewrite Hperm, range1_length. }
  unfold __iter__. rewrite Hlen. cbn [as_int].
  set (st := (rng_shuffle (Py.range1 (Z.of_nat n)) (self_rng self)).2).
  set (self1 := if self_shuffle self then set_rng self st else self).
  assert ((if self_shuffle self
           then let '(x, st) := rng_shuffle (Py.range1 (Z.of_nat n)) (self_rng self) in
                (x, set_rng self st)
           else (Py.range1 (Z.of_nat n), self))
          = (iter_indices self (Z.of_nat n), self1)) as ->.
  { unfold iter_indices, self1, st. destruct (self_shuffle self); [|done].
    by destruct (rng_shuffle _ _). }
  assert (self_chunk_size self1 = self_chunk_size self
          ∧ self_batch_size self1 = self_batch_size self
          ∧ first_shard_holds self1 ((col, series) :: rest) w) as (Ecs & Ebs & Hw1).
  { unfold self1. by destruct (self_shuffle self). }
  rewrite Ecs, range_windows by done.
  pose proof (iter_chunks_out_of_range self1 col series rest
                (iter_indices self (Z.of_nat n))
                (seq 0 (ceil_div n (self_chunk_size self))) w Hw1) as Hfail.
  rewrite Ecs, Ebs in Hfail. unfold Py.len in Hfail. rewrite Hn in Hfail.
  destruct (iter_chunks self1 (Z.of_nat n) _ _ w) as [[batches e] w'].
  simpl in *. apply Hfail; [done|done| |].
  - apply Forall_forall. intros k Hk%elem_of_seq. apply ceil_div_bounds; [done|lia].
  - change (Exists (λ i, Z.of_nat (col_len series) ≤ i)
              (concat ((λ k : nat, Py.slice (iter_indices self (Z.of_nat n))
                          (Z.of_nat k * self_chunk_size self)
                          (Z.min (Z.of_nat k * self_chunk_size self + self_chunk_size self)
                             (Z.of_nat n)))
                       <$> seq 0 (ceil_div n (self_chunk_size self))))).
    assert (concat ((λ k : nat, Py.slice (iter_indices self (Z.of_nat n))
                          (Z.of_nat k * self_chunk_size self)
                          (Z.min (Z.of_nat k * self_chunk_size self + self_chunk_size self)
                             (Z.of_nat n)))
                       <$> seq 0 (ceil_div n (self_chunk_size self)))
            = iter_indices self (Z.of_nat n)) as ->.
    { etransitivity; [|exact (windows_concat (iter_indices self (Z.of_nat n))
                                (self_chunk_size self) Hcs)].
      unfold windows, Py.len. by rewrite Hn. }
    apply Exists_exists. exists (Z.of_nat (col_len series)). split; [|lia].
    rewrite Hperm. unfold Py.range1. rewrite Nat2Z.id.
    apply list_elem_of_fmap_2, elem_of_seq. lia.
Qed.

End beyond.

Lemma iter_fails_beyond_first_shard_witness :
  open_ten "none" 4 3 false 4 = Ok ten_sharded
  ∧ first_shard_holds ten_sharded
      (("id", ColInt [0; 1; 2; 3]) :: [("ok", ColBool [true; false; true; false]);
                                       ("name", ColObject ["a"; "b"; "c"; "d"])])
      (disk_ten "none" 4)
  ∧ self_length ten_sharded = JInt (Z.of_nat 10)
  ∧ (col_len (ColInt [0; 1; 2; 3]%Z) < 10)%nat
  ∧ 0 < self_chunk_size ten_sharded
  ∧ 0 < self_batch_size ten_sharded
  ∧ (__iter__ ten_sharded (disk_ten "none" 4)).1.1.2 = Some IndexError.
Proof.
  assert (open_ten "none" 4 3 false 4 = Ok ten_sharded) as H0 by reflexivity.
  assert (first_shard_holds ten_sharded
            (("id", ColInt [0; 1; 2; 3]) :: [("ok", ColBool [true; false; true; false]);
                                             ("name", ColObject ["a"; "b"; "c"; "d"])])
            (disk_ten "none" 4)) as H1.
  { split; [reflexivity|]. exists "out/shard.00000.parquet". split; reflexivity. }
  assert (self_length ten_sharded = JInt (Z.of_nat 10)) as H2 by reflexivity.
  assert (col_len (ColInt [0; 1; 2; 3]%Z) < 10)%nat as H3 by (vm_compute; lia).
  assert (0 < self_chunk_size ten_sharded) as H4 by reflexivity.
  assert (0 < self_batch_size ten_sharded) as H5 by reflexivity.
  do 6 (split; [assumption|]).
  exact (iter_fails_beyond_first_shard ten_sharded _ _ _ 10 _ H1 H2 H3 H4 H5).
Defined.
